(** * Observations server: the event log, the session registry and the query engine

    A shallow embedding of [observer-mcp.py].  The four tools
    ([bootstrap_session], [start_thread], [append_event], [list_events]) and
    their helpers are written as functions over an explicit process state:
    the two module globals, the two files the module touches, and the
    sources of time and randomness it reads. *)

From Stdlib Require Import String Ascii List ZArith Lia ZifyBool Bool Arith PeanoNat.
Import ListNotations.
Set Warnings "-register-all".
Open Scope string_scope.
Open Scope Z_scope.

(** ** JSON values and Python dictionaries *)

(** What [json.loads] produces and [json.dumps] consumes.  A Python [dict] is
    kept as an association list in insertion order with one entry per key; a
    float is opaque to this program and is kept as its 64-bit pattern. *)
Inductive json : Type :=
| JNull
| JBool (b : bool)
| JInt (z : Z)
| JFloat (bits : Z)
| JStr (s : string)
| JArr (items : list json)
| JObj (fields : list (string * json)).

Section StrDict.
Context {V : Type}.

(** [d.get(k)] *)
Fixpoint dict_get (k : string) (d : list (string * V)) : option V :=
  match d with
  | [] => None
  | (k', v) :: d' => if String.eqb k k' then Some v else dict_get k d'
  end.

(** [k in d] *)
Definition dict_mem (k : string) (d : list (string * V)) : bool :=
  match dict_get k d with Some _ => true | None => false end.

(** [d[k] = v]: an existing key keeps its position, a new key goes last. *)
Fixpoint dict_set (k : string) (v : V) (d : list (string * V))
  : list (string * V) :=
  match d with
  | [] => [(k, v)]
  | (k', v') :: d' =>
      if String.eqb k k' then (k, v) :: d' else (k', v') :: dict_set k v d'
  end.

Definition dict_keys (d : list (string * V)) : list string := map fst d.
End StrDict.

Definition dict : Type := list (string * json).

(** Python's [None] for an optional string or list argument. *)
Definition opt_str (o : option string) : json :=
  match o with Some s => JStr s | None => JNull end.

Definition opt_float (o : option Z) : json :=
  match o with Some b => JFloat b | None => JNull end.

(** Truthiness of an [Optional[str]]: [None] and [""] are falsy. *)
Definition truthy_str (o : option string) : bool :=
  match o with
  | Some s => negb (String.eqb s "")
  | None => false
  end.

(** [a or b] on optional strings. *)
Definition or_str (a b : option string) : option string :=
  if truthy_str a then a else b.

(** [s.replace("Z", "")]: every occurrence of the character is removed. *)
Fixpoint remove_char (c : ascii) (s : string) : string :=
  match s with
  | EmptyString => EmptyString
  | String a s' =>
      if Ascii.eqb a c then remove_char c s' else String a (remove_char c s')
  end.

Definition replace_Z (s : string) : string := remove_char "Z"%char s.

(** ** Exceptions and results *)

Inductive exn : Type :=
| KeyError
| TypeError
| ValueError
| AttributeError
| JSONDecodeError.

Inductive result (A : Type) : Type :=
| Ok (a : A)
| Raise (e : exn).
Arguments Ok {A} a.
Arguments Raise {A} e.

Definition rbind {A B} (r : result A) (k : A -> result B) : result B :=
  match r with
  | Ok a => k a
  | Raise e => Raise e
  end.

(** ** The process and its environment *)

(** A line of the log file as [_iter_events] sees it: blank after [strip()],
    text that [json.loads] rejects, or the value [json.loads] returns.
    [_append_line] writes [json.dumps(obj)] and a newline, which reads back
    as [Record obj]. *)
Inductive line : Type :=
| Blank
| Garbled
| Record (v : json).

(** What is found at [CONTEXT_PATH]. *)
Inductive context_file : Type :=
| NoFile
| Unreadable
| NotJson
| Document (v : json).

(** [_PRIVATE_CTX] and [_ACTIVE_SESSION_ID] are the module globals;
    [log_file] is the content of [LOG_PATH] ([None] while the file does not
    exist) and [ctx_file] what is at [CONTEXT_PATH].  The k-th call of
    [secrets.token_hex(4)], [uuid.uuid4().hex] and
    [datetime.utcnow().isoformat(timespec="seconds")] returns [token_hex k],
    [uuid4_hex k] and [utcnow k]; the three counters say how many calls were
    made so far. *)
Record state : Type := mkState {
  _PRIVATE_CTX : list (string * dict);
  _ACTIVE_SESSION_ID : option string;
  log_file : option (list line);
  ctx_file : context_file;
  token_hex : nat -> string;
  uuid4_hex : nat -> string;
  utcnow : nat -> string;
  n_token : nat;
  n_uuid : nat;
  n_clock : nat
}.

(** Computations that read and write the process state and may raise. *)
Definition M (A : Type) : Type := state -> result A * state.

Definition ret {A} (a : A) : M A := fun st => (Ok a, st).

Definition raise {A} (e : exn) : M A := fun st => (Raise e, st).

Definition bind {A B} (m : M A) (k : A -> M B) : M B :=
  fun st =>
    match m st with
    | (Ok a, st') => k a st'
    | (Raise e, st') => (Raise e, st')
    end.

Declare Scope py_scope.
Delimit Scope py_scope with py.
Notation "x <- m ;; k" := (bind m (fun x => k))
  (at level 100, m at next level, right associativity) : py_scope.
Notation "m ;;; k" := (bind m (fun _ => k))
  (at level 100, right associativity) : py_scope.
Open Scope py_scope.

Definition lift {A} (r : result A) : M A := fun st => (r, st).

Definition set_log (l : option (list line)) (st : state) : state :=
  mkState (_PRIVATE_CTX st) (_ACTIVE_SESSION_ID st) l (ctx_file st)
          (token_hex st) (uuid4_hex st) (utcnow st)
          (n_token st) (n_uuid st) (n_clock st).

Definition set_private (p : list (string * dict)) (st : state) : state :=
  mkState p (_ACTIVE_SESSION_ID st) (log_file st) (ctx_file st)
          (token_hex st) (uuid4_hex st) (utcnow st)
          (n_token st) (n_uuid st) (n_clock st).

Definition set_active (a : option string) (st : state) : state :=
  mkState (_PRIVATE_CTX st) a (log_file st) (ctx_file st)
          (token_hex st) (uuid4_hex st) (utcnow st)
          (n_token st) (n_uuid st) (n_clock st).

(** [secrets.token_hex(4)] *)
Definition secrets_token_hex : M string := fun st =>
  (Ok (token_hex st (n_token st)),
   mkState (_PRIVATE_CTX st) (_ACTIVE_SESSION_ID st) (log_file st) (ctx_file st)
           (token_hex st) (uuid4_hex st) (utcnow st)
           (S (n_token st)) (n_uuid st) (n_clock st)).

(** [uuid.uuid4().hex] *)
Definition uuid_uuid4_hex : M string := fun st =>
  (Ok (uuid4_hex st (n_uuid st)),
   mkState (_PRIVATE_CTX st) (_ACTIVE_SESSION_ID st) (log_file st) (ctx_file st)
           (token_hex st) (uuid4_hex st) (utcnow st)
           (n_token st) (S (n_uuid st)) (n_clock st)).

(** [datetime.datetime.utcnow().isoformat(timespec="seconds")] *)
Definition utcnow_isoformat : M string := fun st =>
  (Ok (utcnow st (n_clock st)),
   mkState (_PRIVATE_CTX st) (_ACTIVE_SESSION_ID st) (log_file st) (ctx_file st)
           (token_hex st) (uuid4_hex st) (utcnow st)
           (n_token st) (n_uuid st) (S (n_clock st))).

(** ** Helpers *)

Definition now_iso : M string :=
  s <- utcnow_isoformat ;;
  ret (s ++ "Z").

(** Opening [LOG_PATH] in append mode creates the file when it is missing.
    This is the call that goes through, on a log whose last line, if there
    is one, ends with a newline: what the directory, the lock, the file or
    the encoding of the text may raise, and the code lets through to the
    caller, is not part of it. *)
Definition _append_line (obj : dict) : M dict := fun st =>
  let old := match log_file st with Some ls => ls | None => [] end in
  (Ok obj, set_log (Some (old ++ [Record (JObj obj)])%list) st).

(** The generator, as the list of outcomes it goes through: a blank line
    yields nothing, a record is yielded, and text that is not JSON raises at
    the moment the consumer reaches it. *)
Definition _iter_events (st : state) : list line :=
  match log_file st with
  | None => []
  | Some ls => ls
  end.

Definition fallback_context : dict :=
  [("user_id", JStr "user_demo"); ("ourn", JStr "sql_10min_intro");
   ("cohort", JStr "pilot")].

(** Whatever goes wrong between [exists()] and [json.loads] is caught; a
    document that parses is returned as it is, object or not. *)
Definition _load_private_context (st : state) : json :=
  match ctx_file st with
  | Document v => v
  | NoFile | Unreadable | NotJson => JObj fallback_context
  end.

Definition KINDS : list string :=
  ["submission"; "verify"; "feedback"; "hint"; "note"; "reflection";
   "state"; "metric"].

Definition str_in (s : string) (l : list string) : bool :=
  existsb (String.eqb s) l.

(** [sorted(...)] on strings: insertion into an ordered list, by code point. *)
Fixpoint insert_sorted (s : string) (l : list string) : list string :=
  match l with
  | [] => [s]
  | x :: l' => if String.leb s x then s :: l else x :: insert_sorted s l'
  end.

Definition sorted (l : list string) : list string :=
  fold_right insert_sorted [] l.

(** [repr] of a string without quotes, backslashes or control characters,
    and of a list of such strings. *)
Definition repr_str (s : string) : string := "'" ++ s ++ "'".

Definition repr_list (l : list string) : string :=
  "[" ++ String.concat ", " (map repr_str l) ++ "]".

(** ** The tools *)

Definition no_session_error : dict :=
  [("error",
    JStr "No active session. Call bootstrap_session first or pass session_id.")].

Definition invalid_kind_error (kind : string) : dict :=
  [("error",
    JStr ("Invalid kind '" ++ kind ++ "'. Must be one of "
          ++ repr_list (sorted KINDS) ++ "."))].

(** [{**x}]: unpacking anything but a mapping is a [TypeError]. *)
Definition unpack_mapping (x : json) : M dict :=
  match x with
  | JObj d => ret d
  | _ => raise TypeError
  end.

(** [_PRIVATE_CTX[sid]] *)
Definition private_ctx_of (sid : string) : M dict := fun st =>
  match dict_get sid (_PRIVATE_CTX st) with
  | Some d => (Ok d, st)
  | None => (Raise KeyError, st)
  end.

(** The loop [for k in expose or []] of [bootstrap_session]; the stored
    context is looked up again at every use, as in the source. *)
Fixpoint expose_loop (sid : string) (ks : list string) (payload : dict)
  : M dict :=
  match ks with
  | [] => ret payload
  | k :: ks' =>
      d <- private_ctx_of sid ;;
      match dict_get k d with
      | Some v => expose_loop sid ks' (dict_set k v payload)
      | None => expose_loop sid ks' payload
      end
  end.

Definition session_start_event (session_id evt_hex ts : string) : dict :=
  [("id", JStr ("evt_" ++ evt_hex));
   ("ts", JStr ts);
   ("actor", JStr "system");
   ("session_id", JStr session_id);
   ("activity_id", JNull);
   ("thread_id", JNull);
   ("kind", JStr "state");
   ("tags", JArr [JStr "session_start"]);
   ("data", JObj [("meta", JStr "started")])].

Definition bootstrap_session (expose : option (list string)) : M dict :=
  private_ctx <- (fun st => (Ok (_load_private_context st), st)) ;;
  tok <- secrets_token_hex ;;
  let session_id := "sess_" ++ tok in
  base <- unpack_mapping private_ctx ;;
  created <- now_iso ;;
  (fun st => (Ok tt,
              set_private (dict_set session_id
                                    (dict_set "ts" (JStr created) base)
                                    (_PRIVATE_CTX st)) st)) ;;;
  (fun st => (Ok tt, set_active (Some session_id) st)) ;;;
  evt_hex <- uuid_uuid4_hex ;;
  ts <- now_iso ;;
  _append_line (session_start_event session_id evt_hex ts) ;;;
  expose_loop session_id
              (match expose with Some ks => ks | None => [] end)
              [("session_id", JStr session_id)].

(** [uuid.uuid4().hex[:8]] *)
Definition first8 (hex : string) : string := substring 0 8 hex.

Definition thread_start_event
  (sid activity_id thread_id evt_hex ts : string) (metadata : option dict)
  : dict :=
  [("id", JStr ("evt_" ++ evt_hex));
   ("ts", JStr ts);
   ("actor", JStr "system");
   ("session_id", JStr sid);
   ("activity_id", JStr activity_id);
   ("thread_id", JStr thread_id);
   ("kind", JStr "state");
   ("tags", JArr [JStr "thread_start"]);
   ("data", JObj [("metadata",
                   JObj (match metadata with Some d => d | None => [] end))])].

Definition start_thread
  (activity_id : string) (session_id : option string)
  (metadata : option dict) : M dict := fun st =>
  match or_str session_id (_ACTIVE_SESSION_ID st) with
  | Some sid =>
      if String.eqb sid "" then (Ok no_session_error, st)
      else
        (thr_hex <- uuid_uuid4_hex ;;
         let thread_id := "thr_" ++ first8 thr_hex in
         evt_hex <- uuid_uuid4_hex ;;
         ts <- now_iso ;;
         let ev :=
           thread_start_event sid activity_id thread_id evt_hex ts metadata in
         _append_line ev ;;;
         ret [("session_id", JStr sid); ("thread_id", JStr thread_id);
              ("event", JObj ev)]) st
  | None => (Ok no_session_error, st)
  end.

Definition observation_event
  (sid activity_id thread_id kind : string) (data : dict)
  (tags : option (list string)) (actor : option string)
  (confidence : option Z) (supersedes : option string)
  (evt_hex ts : string) : dict :=
  [("id", JStr ("evt_" ++ evt_hex));
   ("ts", JStr ts);
   ("actor", JStr (match or_str actor (Some "llm") with
                   | Some a => a | None => "llm" end));
   ("session_id", JStr sid);
   ("activity_id", JStr activity_id);
   ("thread_id", JStr thread_id);
   ("kind", JStr kind);
   ("tags", JArr (map JStr (match tags with Some t => t | None => [] end)));
   ("data", JObj data);
   ("confidence", opt_float confidence);
   ("supersedes", opt_str supersedes)].

Definition append_event
  (activity_id thread_id kind : string) (data : dict)
  (tags : option (list string)) (actor : option string)
  (confidence : option Z) (supersedes : option string)
  (session_id : option string) : M dict := fun st =>
  match or_str session_id (_ACTIVE_SESSION_ID st) with
  | Some sid =>
      if String.eqb sid "" then (Ok no_session_error, st)
      else if negb (str_in kind KINDS) then (Ok (invalid_kind_error kind), st)
      else
        (evt_hex <- uuid_uuid4_hex ;;
         ts <- now_iso ;;
         _append_line
           (observation_event sid activity_id thread_id kind data tags actor
                              confidence supersedes evt_hex ts)) st
  | None => (Ok no_session_error, st)
  end.

(** ** Timestamps *)

(** A [datetime.datetime]: the calendar fields as one count of microseconds
    (proleptic Gregorian ordinal, then time of day), and the UTC offset in
    microseconds when the value is aware ([None] when it is naive). *)
Record datetime : Type := mkDatetime {
  wall : Z;
  utcoffset : option Z
}.

(** [a < b] on datetimes: naive values compare by their fields, aware values
    by their instants, and mixing the two is a [TypeError]. *)
Definition dt_lt (a b : datetime) : result bool :=
  match utcoffset a, utcoffset b with
  | None, None => Ok (wall a <? wall b)
  | Some oa, Some ob => Ok (wall a - oa <? wall b - ob)
  | _, _ => Raise TypeError
  end.

(** ** Reading fields of a scanned record *)

(** [ev.get(k)] *)
Definition py_get (ev : json) (k : string) : result json :=
  match ev with
  | JObj d => Ok (match dict_get k d with Some v => v | None => JNull end)
  | _ => Raise AttributeError
  end.

(** [ev[k]] *)
Definition py_getitem (ev : json) (k : string) : result json :=
  match ev with
  | JObj d =>
      match dict_get k d with Some v => Ok v | None => Raise KeyError end
  | _ => Raise TypeError
  end.

(** [v.replace("Z", "")] *)
Definition py_replace_Z (v : json) : result string :=
  match v with
  | JStr s => Ok (replace_Z s)
  | _ => Raise AttributeError
  end.

(** [v != s] for a string [s] *)
Definition ne_str (v : json) (s : string) : bool :=
  match v with
  | JStr s' => negb (String.eqb s' s)
  | _ => true
  end.

(** [v not in kinds_set]: lists and dicts cannot be hashed. *)
Definition not_in_set (v : json) (ks : list string) : result bool :=
  match v with
  | JStr s => Ok (negb (str_in s ks))
  | JArr _ | JObj _ => Raise TypeError
  | _ => Ok true
  end.

(** The guard [if flt and ev.get(k) != flt: continue]; [true] means
    [continue]. *)
Definition skip_on (flt : option string) (ev : json) (k : string)
  : result bool :=
  match flt with
  | Some s =>
      if String.eqb s "" then Ok false
      else rbind (py_get ev k) (fun v => Ok (ne_str v s))
  | None => Ok false
  end.

Definition effective_limit (limit : Z) : Z := Z.max 1 (Z.min limit 2000).

Section QueryEngine.

(** [datetime.datetime.fromisoformat]; [None] stands for its
    [ValueError]. *)
Variable fromisoformat : string -> option datetime.

Definition py_fromisoformat (s : string) : result datetime :=
  match fromisoformat s with
  | Some d => Ok d
  | None => Raise ValueError
  end.

Definition parse_ts (s : option string) : result (option datetime) :=
  match s with
  | Some t =>
      if String.eqb t "" then Ok None
      else rbind (py_fromisoformat (replace_Z t)) (fun d => Ok (Some d))
  | None => Ok None
  end.

Section Loop.
Variables session_id activity_id thread_id : option string.
Variable kinds_set : list string.
Variables ts_since ts_until : option datetime.
Variable limit : Z.

(** One pass through the body of the [for] loop, up to
    [out.append(ev)]: [Ok false] when a [continue] is taken, [Ok true]
    when the event is to be appended. *)
Definition loop_body (ev : json) : result bool :=
  rbind (skip_on session_id ev "session_id") (fun c1 =>
  if c1 then Ok false else
  rbind (skip_on activity_id ev "activity_id") (fun c2 =>
  if c2 then Ok false else
  rbind (skip_on thread_id ev "thread_id") (fun c3 =>
  if c3 then Ok false else
  rbind (match kinds_set with
         | [] => Ok false
         | _ :: _ => rbind (py_get ev "kind")
                           (fun v => not_in_set v kinds_set)
         end) (fun c4 =>
  if c4 then Ok false else
  rbind (py_getitem ev "ts") (fun raw =>
  rbind (py_replace_Z raw) (fun txt =>
  rbind (py_fromisoformat txt) (fun ts =>
  rbind (match ts_since with
         | Some t0 => dt_lt ts t0
         | None => Ok false
         end) (fun c5 =>
  if c5 then Ok false else
  rbind (match ts_until with
         | Some t1 => dt_lt t1 ts
         | None => Ok false
         end) (fun c6 =>
  if c6 then Ok false else Ok true))))))))).

(** The [for] loop over the generator, with [out] and [count] as they
    stand when the line is reached; the [break] ends the scan. *)
Fixpoint scan (lines : list line) (out : list json) (count : Z)
  : result (list json) :=
  match lines with
  | [] => Ok out
  | Blank :: rest => scan rest out count
  | Garbled :: _ => Raise JSONDecodeError
  | Record ev :: rest =>
      rbind (loop_body ev) (fun keep =>
      if keep then
        if count + 1 >=? effective_limit limit then Ok (out ++ [ev])%list
        else scan rest (out ++ [ev])%list (count + 1)
      else scan rest out count)
  end.
End Loop.

Definition list_events
  (session_id activity_id thread_id : option string)
  (kinds : option (list string)) (since until : option string)
  (limit : Z) : M (list json) := fun st =>
  (rbind (parse_ts since) (fun ts_since =>
   rbind (parse_ts until) (fun ts_until =>
   let kinds_set := match kinds with Some ks => ks | None => [] end in
   scan session_id activity_id thread_id kinds_set ts_since ts_until
        limit (_iter_events st) [] 0)), st).

End QueryEngine.

(** ** A reader for the timestamps the server writes *)

(** The calendar liametic of [datetime.py]. *)
Definition _is_leap (year : Z) : bool :=
  (year mod 4 =? 0) && (negb (year mod 100 =? 0) || (year mod 400 =? 0)).

Definition _days_before_year (year : Z) : Z :=
  let y := year - 1 in y * 365 + y / 4 - y / 100 + y / 400.

Definition _days_in_month (year month : Z) : Z :=
  if (month =? 2) && _is_leap year then 29
  else nth (Z.to_nat month) [0; 31; 28; 31; 30; 31; 30; 31; 31; 30; 31; 30; 31] 0.

Definition _days_before_month (year month : Z) : Z :=
  nth (Z.to_nat month)
      [0; 0; 31; 59; 90; 120; 151; 181; 212; 243; 273; 304; 334] 0
  + (if (2 <? month) && _is_leap year then 1 else 0).

Definition _ymd2ord (year month day : Z) : Z :=
  _days_before_year year + _days_before_month year month + day.

Definition digit (c : ascii) : option Z :=
  let n := Z.of_nat (nat_of_ascii c) in
  if (48 <=? n) && (n <=? 57) then Some (n - 48) else None.

Fixpoint digits (cs : list ascii) (acc : Z) : option Z :=
  match cs with
  | [] => Some acc
  | c :: cs' =>
      match digit c with
      | Some d => digits cs' (acc * 10 + d)
      | None => None
      end
  end.

Definition number (cs : list ascii) : option Z := digits cs 0.

Definition in_range (lo hi : Z) (o : option Z) : option Z :=
  match o with
  | Some v => if (lo <=? v) && (v <=? hi) then Some v else None
  | None => None
  end.

Definition parse_date (y1 y2 y3 y4 m1 m2 d1 d2 : ascii) : option Z :=
  match in_range 1 9999 (number [y1; y2; y3; y4]),
        in_range 1 12 (number [m1; m2]) with
  | Some y, Some m =>
      match in_range 1 (_days_in_month y m) (number [d1; d2]) with
      | Some d => Some (_ymd2ord y m d)
      | None => None
      end
  | _, _ => None
  end.

Definition parse_hms (h1 h2 m1 m2 s1 s2 : ascii) : option Z :=
  match in_range 0 23 (number [h1; h2]), in_range 0 59 (number [m1; m2]),
        in_range 0 59 (number [s1; s2]) with
  | Some h, Some m, Some s => Some ((h * 60 + m) * 60 + s)
  | _, _, _ => None
  end.

Definition parse_offset (cs : list ascii) : option (option Z) :=
  match cs with
  | [] => Some None
  | [sg; h1; h2; ":"%char; m1; m2] =>
      match in_range 0 23 (number [h1; h2]), in_range 0 59 (number [m1; m2]) with
      | Some h, Some m =>
          let us := (h * 60 + m) * 60 * 1000000 in
          if Ascii.eqb sg "+" then Some (Some us)
          else if Ascii.eqb sg "-" then Some (Some (- us))
          else None
      | _, _ => None
      end
  | _ => None
  end.

(** [YYYY-MM-DD], [YYYY-MM-DD?HH:MM:SS] and [YYYY-MM-DD?HH:MM:SS+HH:MM] with
    any one character as the separator: what [isoformat] writes at second
    precision, read the way every [fromisoformat] since Python 3.7 reads it.
    Other text is refused here. *)
Definition fromisoformat_seconds (s : string) : option datetime :=
  match list_ascii_of_string s with
  | y1 :: y2 :: y3 :: y4 :: "-"%char :: m1 :: m2 :: "-"%char :: d1 :: d2 :: rest =>
      match parse_date y1 y2 y3 y4 m1 m2 d1 d2 with
      | Some ord =>
          match rest with
          | [] => Some (mkDatetime (ord * 86400 * 1000000) None)
          | _ :: h1 :: h2 :: ":"%char :: mi1 :: mi2 :: ":"%char :: s1 :: s2 :: tz =>
              match parse_hms h1 h2 mi1 mi2 s1 s2, parse_offset tz with
              | Some secs, Some off =>
                  Some (mkDatetime ((ord * 86400 + secs) * 1000000) off)
              | _, _ => None
              end
          | _ => None
          end
      | None => None
      end
  | _ => None
  end.

(** ** Sample states *)

(** A process that has just started: nothing in memory, no log file, no
    context file, and fixed answers from the clock and the random sources. *)
Definition fresh_process : state :=
  mkState [] None None NoFile
          (fun k => if Nat.eqb k 0 then "0a1b2c3d" else "9f8e7d6c")
          (fun k => if Nat.eqb k 0 then "00112233445566778899aabbccddeeff"
                    else if Nat.eqb k 1 then "a1b2c3d4e5f60718293a4b5c6d7e8f90"
                    else "5566778899aabbccddeeff0011223344")
          (fun k => "2024-05-01T10:00:00") 0 0 0.

(** The same process with a session already active. *)
Definition in_session : state := set_active (Some "sess_0a1b2c3d") fresh_process.


(** ** What the return value of [bootstrap_session] may hold *)

(** The payload after the loop [for k in expose or []], computed in one go
    from the context stored for the session. *)
Definition expose_fold (stored : dict) (ks : list string) (payload : dict)
  : dict :=
  fold_left (fun p k => match dict_get k stored with
                        | Some v => dict_set k v p
                        | None => p
                        end) ks payload.

(** [payload] is a dictionary holding the session id and, of the fields of
    [ctx], those named in [expose] and nothing else. *)
Definition exposes_exactly
  (ctx : dict) (expose : list string) (sid : string) (payload : dict) : Prop :=
  NoDup (dict_keys payload) /\
  forall k,
    dict_get k payload =
    if String.eqb k "session_id" then Some (JStr sid)
    else if str_in k expose then dict_get k ctx
    else None.

Definition set_ctx_file (c : context_file) (st : state) : state :=
  mkState (_PRIVATE_CTX st) (_ACTIVE_SESSION_ID st) (log_file st) c
          (token_hex st) (uuid4_hex st) (utcnow st)
          (n_token st) (n_uuid st) (n_clock st).

(** The state [bootstrap_session] leaves behind when the private context it
    loaded is the dictionary [base]. *)
Definition bootstrapped (base : dict) (st : state) : state :=
  let sid := "sess_" ++ token_hex st (n_token st) in
  mkState
    (dict_set sid (dict_set "ts" (JStr (utcnow st (n_clock st) ++ "Z")) base)
              (_PRIVATE_CTX st))
    (Some sid)
    (Some (_iter_events st
           ++ [Record (JObj (session_start_event
                               sid (uuid4_hex st (n_uuid st))
                               (utcnow st (S (n_clock st)) ++ "Z")))])%list)
    (ctx_file st) (token_hex st) (uuid4_hex st) (utcnow st)
    (S (n_token st)) (S (n_uuid st)) (S (S (n_clock st))).


(** A context file holding [{"user_id": "u1", "ourn": "o1", "cohort": "pilot"}]. *)
Definition with_context : state :=
  set_ctx_file
    (Document (JObj [("user_id", JStr "u1"); ("ourn", JStr "o1");
                     ("cohort", JStr "pilot")]))
    fresh_process.

(** ** What [list_events] is to return *)

(** The events of a log, in file order. *)
Definition records (ls : list line) : list json :=
  flat_map (fun l => match l with Record ev => [ev] | _ => [] end) ls.

(** An identity filter: absent or empty, or equal to the event's field. *)
Definition field_matches (flt : option string) (ev : json) (k : string)
  : bool :=
  match flt with
  | Some s =>
      if String.eqb s "" then true
      else match ev with
           | JObj d =>
               match dict_get k d with
               | Some (JStr s') => String.eqb s' s
               | _ => false
               end
           | _ => false
           end
  | None => true
  end.

(** The kind filter: no kinds given, or the event's kind is one of them. *)
Definition kind_matches (kinds : option (list string)) (ev : json) : bool :=
  match kinds with
  | Some (k0 :: ks) =>
      match ev with
      | JObj d =>
          match dict_get "kind" d with
          | Some (JStr s) => str_in s (k0 :: ks)
          | _ => false
          end
      | _ => false
      end
  | _ => true
  end.

Definition is_naive (o : option datetime) : bool :=
  match o with
  | Some t => match utcoffset t with None => true | Some _ => false end
  | None => false
  end.

Section QuerySpec.
Variable fromisoformat : string -> option datetime.

(** The time an event carries: its [ts] string, read after its [Z]s are
    taken out. *)
Definition event_time (ev : json) : option datetime :=
  match ev with
  | JObj d =>
      match dict_get "ts" d with
      | Some (JStr s) => fromisoformat (replace_Z s)
      | _ => None
      end
  | _ => None
  end.

(** The time a [since] or [until] argument stands for, if it is given. *)
Definition bound_time (s : option string) : option datetime :=
  match s with
  | Some t => if String.eqb t "" then None else fromisoformat (replace_Z t)
  | None => None
  end.

(** The inclusive window, on the calendar fields as they are written. *)
Definition in_window (since until : option string) (ev : json) : bool :=
  match event_time ev with
  | Some t =>
      (match bound_time since with
       | Some t0 => wall t0 <=? wall t
       | None => true
       end)
      && (match bound_time until with
          | Some t1 => wall t <=? wall t1
          | None => true
          end)
  | None => false
  end.

(** The event satisfies every filter that was supplied. *)
Definition satisfies
  (session_id activity_id thread_id : option string)
  (kinds : option (list string)) (since until : option string)
  (ev : json) : bool :=
  field_matches session_id ev "session_id"
  && field_matches activity_id ev "activity_id"
  && field_matches thread_id ev "thread_id"
  && kind_matches kinds ev
  && in_window since until ev.

(** A [since] or [until] argument that is absent, empty, or reads as a
    timestamp; and one that moreover reads as a naive timestamp. *)
Definition bound_parses (s : option string) : bool :=
  match parse_ts fromisoformat s with Ok _ => true | Raise _ => false end.

Definition bound_ok (s : option string) : bool :=
  match s with
  | Some t =>
      if String.eqb t "" then true else is_naive (fromisoformat (replace_Z t))
  | None => true
  end.

(** A line that holds an event as the server writes them: a JSON object
    whose [ts] is a string that reads as a naive timestamp and whose
    [kind], if it has one, is not a list or an object. *)
Definition event_ok (ev : json) : bool :=
  match ev with
  | JObj d =>
      is_naive (event_time ev)
      && match dict_get "kind" d with
         | Some (JArr _) | Some (JObj _) => false
         | _ => true
         end
  | _ => false
  end.

Definition line_ok (l : line) : bool :=
  match l with
  | Blank => true
  | Garbled => false
  | Record ev => event_ok ev
  end.
End QuerySpec.

(** A log of three events and a blank line, and the same log followed by an
    event that has no [ts]. *)
Definition note_at (id ts : string) : json :=
  JObj [("id", JStr id); ("ts", JStr ts); ("actor", JStr "llm");
        ("session_id", JStr "sess_0a1b2c3d"); ("activity_id", JStr "act1");
        ("thread_id", JStr "thr_a1b2c3d4"); ("kind", JStr "note");
        ("tags", JArr []); ("data", JObj []);
        ("confidence", JNull); ("supersedes", JNull)].

Definition metric_at (id ts : string) : json :=
  JObj [("id", JStr id); ("ts", JStr ts); ("actor", JStr "llm");
        ("session_id", JStr "sess_0a1b2c3d"); ("activity_id", JStr "act1");
        ("thread_id", JStr "thr_a1b2c3d4"); ("kind", JStr "metric");
        ("tags", JArr []); ("data", JObj []);
        ("confidence", JNull); ("supersedes", JNull)].

Definition undated : json :=
  JObj [("id", JStr "evt_3"); ("session_id", JStr "sess_0a1b2c3d");
        ("kind", JStr "note")].

Definition three_events : list line :=
  [Record (note_at "evt_0" "2024-05-01T10:00:00Z");
   Blank;
   Record (metric_at "evt_1" "2024-05-01T10:00:05Z");
   Record (note_at "evt_2" "2024-05-01T10:00:09Z")].

Definition with_log (ls : list line) : state := set_log (Some ls) in_session.

(** ** Histories of tool calls *)

(** A call of one of the four tools with its arguments. *)
Inductive call : Type :=
| Bootstrap (expose : option (list string))
| StartThread (activity_id : string) (session_id : option string)
              (metadata : option dict)
| AppendEvent (activity_id thread_id kind : string) (data : dict)
              (tags : option (list string)) (actor : option string)
              (confidence : option Z) (supersedes session_id : option string)
| ListEvents (session_id activity_id thread_id : option string)
             (kinds : option (list string)) (since until : option string)
             (limit : Z).

(** The state a call leaves behind, whether it returned or raised; and the
    state after a series of calls made one after the other. *)
Definition serve (fromisoformat : string -> option datetime)
           (c : call) (st : state) : state :=
  match c with
  | Bootstrap expose => snd (bootstrap_session expose st)
  | StartThread activity_id session_id metadata =>
      snd (start_thread activity_id session_id metadata st)
  | AppendEvent activity_id thread_id kind data tags actor confidence
                supersedes session_id =>
      snd (append_event activity_id thread_id kind data tags actor confidence
                        supersedes session_id st)
  | ListEvents session_id activity_id thread_id kinds since until limit =>
      snd (list_events fromisoformat session_id activity_id thread_id kinds
                       since until limit st)
  end.

Definition serve_all (fromisoformat : string -> option datetime)
           (calls : list call) (st : state) : state :=
  fold_left (fun s c => serve fromisoformat c s) calls st.

Definition is_bootstrap (c : call) : bool :=
  match c with Bootstrap _ => true | _ => false end.

(** The session a call is made for: the explicit one if it is given and not
    empty, else the active one; the empty string when there is none. *)
Definition resolved (session_id : option string) (st : state) : string :=
  match or_str session_id (_ACTIVE_SESSION_ID st) with
  | Some sid => sid
  | None => ""
  end.

(** The state after a tool drew [draws] UUIDs, read the clock once and
    appended [ev] to the log. *)
Definition after_write (draws : nat) (ev : dict) (st : state) : state :=
  mkState (_PRIVATE_CTX st) (_ACTIVE_SESSION_ID st)
          (Some (_iter_events st ++ [Record (JObj ev)])%list)
          (ctx_file st) (token_hex st) (uuid4_hex st) (utcnow st)
          (n_token st) (draws + n_uuid st) (S (n_clock st)).

(** Two states that differ at most in the private side: the context file
    and the contexts stored in memory. *)
Definition same_public (st1 st2 : state) : Prop :=
  _ACTIVE_SESSION_ID st1 = _ACTIVE_SESSION_ID st2
  /\ log_file st1 = log_file st2
  /\ token_hex st1 = token_hex st2
  /\ uuid4_hex st1 = uuid4_hex st2
  /\ utcnow st1 = utcnow st2
  /\ n_token st1 = n_token st2
  /\ n_uuid st1 = n_uuid st2
  /\ n_clock st1 = n_clock st2.

Definition loads_mapping (st : state) : bool :=
  match _load_private_context st with JObj _ => true | _ => false end.

Definition non_blank (l : line) : bool :=
  match l with Blank => false | _ => true end.

(** The state after a token was drawn and nothing else happened. *)
Definition after_token (st : state) : state :=
  mkState (_PRIVATE_CTX st) (_ACTIVE_SESSION_ID st) (log_file st)
          (ctx_file st) (token_hex st) (uuid4_hex st) (utcnow st)
          (S (n_token st)) (n_uuid st) (n_clock st).

(** What a call answers: the returned dictionary or list, or the exception
    it raises. *)
Definition answer (fromisoformat : string -> option datetime)
           (c : call) (st : state) : result json :=
  match c with
  | Bootstrap expose =>
      rbind (fst (bootstrap_session expose st)) (fun d => Ok (JObj d))
  | StartThread activity_id session_id metadata =>
      rbind (fst (start_thread activity_id session_id metadata st))
            (fun d => Ok (JObj d))
  | AppendEvent activity_id thread_id kind data tags actor confidence
                supersedes session_id =>
      rbind (fst (append_event activity_id thread_id kind data tags actor
                               confidence supersedes session_id st))
            (fun d => Ok (JObj d))
  | ListEvents session_id activity_id thread_id kinds since until limit =>
      rbind (fst (list_events fromisoformat session_id activity_id thread_id
                              kinds since until limit st))
            (fun l => Ok (JArr l))
  end.

(** ** Properties of the dictionary operations *)

Lemma dict_get_set_eq {V} (k : string) (v : V) (d : list (string * V)) :
  dict_get k (dict_set k v d) = Some v.
Proof.
  induction d as [| [k' v'] d IH]; simpl.
  - now rewrite String.eqb_refl.
  - destruct (String.eqb k k') eqn:E; simpl.
    + now rewrite String.eqb_refl.
    + now rewrite E.
Qed.

Lemma dict_get_set_ne {V} (k k' : string) (v : V) (d : list (string * V)) :
  k <> k' -> dict_get k (dict_set k' v d) = dict_get k d.
Proof.
  intros Hne. induction d as [| [k0 v0] d IH]; simpl.
  - destruct (String.eqb_spec k k'); [contradiction | reflexivity].
  - destruct (String.eqb_spec k' k0) as [-> | Hk0]; simpl.
    + destruct (String.eqb_spec k k0); [contradiction | reflexivity].
    + destruct (String.eqb_spec k k0); [reflexivity | exact IH].
Qed.

Lemma str_in_In (s : string) (l : list string) :
  str_in s l = true <-> In s l.
Proof.
  unfold str_in. rewrite existsb_exists. split.
  - intros [x [Hin Heq]]. apply String.eqb_eq in Heq. now subst.
  - intros Hin. exists s. split; [assumption | apply String.eqb_refl].
Qed.

Lemma str_in_not_In (s : string) (l : list string) :
  str_in s l = false <-> ~ In s l.
Proof.
  rewrite <- str_in_In. destruct (str_in s l); split; congruence.
Qed.

Lemma truthy_str_Some (o : option string) :
  truthy_str o = true -> exists s, o = Some s /\ s <> "".
Proof.
  destruct o as [s |]; simpl; [| discriminate].
  intros H. exists s. split; [reflexivity |].
  destruct (String.eqb_spec s ""); [discriminate | assumption].
Qed.

(** ** Session resolution and validation in [append_event] and [start_thread] *)

(** C1: when a session is resolved and [kind] is outside [KINDS],
    [append_event] changes nothing, the log file included, and returns the
    error payload whose message quotes the offending kind and lists the
    eight allowed kinds. *)
Theorem append_event_rejects_unknown_kind
  (activity_id thread_id kind : string) (data : dict)
  (tags : option (list string)) (actor : option string)
  (confidence : option Z) (supersedes session_id : option string)
  (st : state) :
  truthy_str (or_str session_id (_ACTIVE_SESSION_ID st)) = true ->
  ~ In kind KINDS ->
  append_event activity_id thread_id kind data tags actor confidence
               supersedes session_id st
  = (Ok [("error",
          JStr ("Invalid kind '" ++ kind ++
                "'. Must be one of ['feedback', 'hint', 'metric', 'note', 'reflection', 'state', 'submission', 'verify']."))],
     st).
Proof.
  intros Hsid Hkind. unfold append_event.
  destruct (truthy_str_Some _ Hsid) as [sid [-> Hne]].
  destruct (String.eqb_spec sid ""); [contradiction |].
  apply str_in_not_In in Hkind. rewrite Hkind. reflexivity.
Qed.

Lemma append_event_rejects_unknown_kind_witness :
  append_event "act1" "thr_1" "quiz" [] None None None None None in_session
  = (Ok [("error",
          JStr "Invalid kind 'quiz'. Must be one of ['feedback', 'hint', 'metric', 'note', 'reflection', 'state', 'submission', 'verify'].")],
     in_session).
Proof.
  apply (append_event_rejects_unknown_kind
           "act1" "thr_1" "quiz" [] None None None None None in_session).
  - reflexivity.
  - simpl. intros H.
    repeat (destruct H as [H | H]; [discriminate H |]). exact H.
Defined.

(** C4: with no explicit session id and no active session, [append_event]
    and [start_thread] both return the no-active-session error payload and
    leave the whole state, the log file included, as it was. *)
Theorem no_active_session_is_reported
  (activity_id thread_id kind : string) (data : dict)
  (tags : option (list string)) (actor : option string)
  (confidence : option Z) (supersedes : option string)
  (metadata : option dict) (st : state) :
  _ACTIVE_SESSION_ID st = None ->
  append_event activity_id thread_id kind data tags actor confidence
               supersedes None st
  = (Ok [("error",
          JStr "No active session. Call bootstrap_session first or pass session_id.")],
     st)
  /\ start_thread activity_id None metadata st
     = (Ok [("error",
             JStr "No active session. Call bootstrap_session first or pass session_id.")],
        st).
Proof.
  intros Hnone. unfold append_event, start_thread, or_str. simpl.
  rewrite Hnone. split; reflexivity.
Qed.

Lemma no_active_session_is_reported_witness :
  append_event "act1" "thr_1" "note" [] None None None None None fresh_process
  = (Ok no_session_error, fresh_process)
  /\ start_thread "act1" None None fresh_process
     = (Ok no_session_error, fresh_process).
Proof.
  apply (no_active_session_is_reported
           "act1" "thr_1" "note" [] None None None None None fresh_process).
  reflexivity.
Defined.

(** ** [bootstrap_session] *)

Lemma dict_keys_set {V} (k : string) (v : V) (d : list (string * V)) :
  dict_keys (dict_set k v d)
  = if dict_mem k d then dict_keys d else (dict_keys d ++ [k])%list.
Proof.
  unfold dict_mem, dict_keys.
  induction d as [| [k' v'] d IH]; simpl; [reflexivity |].
  destruct (String.eqb_spec k k') as [-> | Hne]; simpl; [reflexivity |].
  rewrite IH. now destruct (dict_get k d).
Qed.

Lemma dict_mem_keys {V} (k : string) (d : list (string * V)) :
  dict_mem k d = true <-> In k (dict_keys d).
Proof.
  unfold dict_mem, dict_keys.
  induction d as [| [k' v'] d IH]; simpl.
  - split; [discriminate | contradiction].
  - destruct (String.eqb_spec k k') as [-> | Hne].
    + split; auto.
    + rewrite IH. split; [auto | intros [H | H]; [congruence | assumption]].
Qed.

Lemma dict_set_NoDup {V} (k : string) (v : V) (d : list (string * V)) :
  NoDup (dict_keys d) -> NoDup (dict_keys (dict_set k v d)).
Proof.
  intros Hnd. rewrite dict_keys_set.
  destruct (dict_mem k d) eqn:E; [assumption |].
  apply NoDup_app; [assumption | constructor; [intros [] | constructor] |].
  intros x Hx [<- | []]. apply dict_mem_keys in Hx. congruence.
Qed.

Lemma expose_loop_runs (sid : string) (stored : dict) (ks : list string) :
  forall (payload : dict) (st : state),
    dict_get sid (_PRIVATE_CTX st) = Some stored ->
    expose_loop sid ks payload st = (Ok (expose_fold stored ks payload), st).
Proof.
  induction ks as [| k ks IH]; intros payload st Hst; simpl.
  - reflexivity.
  - unfold bind, private_ctx_of. rewrite Hst.
    destruct (dict_get k stored); apply IH; assumption.
Qed.

Lemma expose_fold_NoDup (stored : dict) (ks : list string) :
  forall payload,
    NoDup (dict_keys payload) -> NoDup (dict_keys (expose_fold stored ks payload)).
Proof.
  unfold expose_fold.
  induction ks as [| k ks IH]; intros payload Hnd; simpl; [assumption |].
  apply IH. destruct (dict_get k stored); [apply dict_set_NoDup |]; assumption.
Qed.

Lemma expose_fold_get (stored : dict) (ks : list string) (k : string) :
  forall payload,
    dict_get k (expose_fold stored ks payload)
    = if str_in k ks
      then match dict_get k stored with
           | Some v => Some v
           | None => dict_get k payload
           end
      else dict_get k payload.
Proof.
  unfold expose_fold.
  induction ks as [| k0 ks IH]; intros payload; simpl; [reflexivity |].
  rewrite IH. unfold str_in. simpl.
  destruct (String.eqb_spec k k0) as [<- | Hne]; simpl.
  - destruct (dict_get k stored) eqn:E.
    + rewrite dict_get_set_eq. now destruct (existsb (String.eqb k) ks).
    + now destruct (existsb (String.eqb k) ks).
  - destruct (dict_get k0 stored); [| reflexivity].
    now rewrite dict_get_set_ne.
Qed.

Lemma bootstrap_session_runs
  (expose : option (list string)) (st : state) (base : dict) :
  _load_private_context st = JObj base ->
  bootstrap_session expose st
  = (Ok (expose_fold
           (dict_set "ts" (JStr (utcnow st (n_clock st) ++ "Z")) base)
           (match expose with Some ks => ks | None => [] end)
           [("session_id", JStr ("sess_" ++ token_hex st (n_token st)))]),
     bootstrapped base st).
Proof.
  intros Hload. unfold bootstrap_session, bind at 1. rewrite Hload.
  cbn -[expose_loop dict_set String.append].
  apply expose_loop_runs. cbn -[dict_set String.append].
  apply dict_get_set_eq.
Qed.

Lemma bootstrap_session_needs_mapping
  (expose : option (list string)) (st : state) (payload : dict) (st' : state) :
  bootstrap_session expose st = (Ok payload, st') ->
  exists base, _load_private_context st = JObj base.
Proof.
  unfold bootstrap_session, bind at 1.
  destruct (_load_private_context st) eqn:E;
    try (cbn; discriminate).
  intros _. now exists fields.
Qed.

(** C6: when the context file is absent, unreadable or not JSON, the loader
    returns the fixed demo context, and [bootstrap_session] returns normally
    with that context (and the creation time) stored for the new, now
    active, session. *)
Theorem loader_failure_falls_back
  (expose : option (list string)) (st : state) :
  ctx_file st = NoFile \/ ctx_file st = Unreadable \/ ctx_file st = NotJson ->
  _load_private_context st
  = JObj [("user_id", JStr "user_demo"); ("ourn", JStr "sql_10min_intro");
          ("cohort", JStr "pilot")]
  /\ exists payload st',
      bootstrap_session expose st = (Ok payload, st')
      /\ _ACTIVE_SESSION_ID st' = Some ("sess_" ++ token_hex st (n_token st))
      /\ dict_get ("sess_" ++ token_hex st (n_token st)) (_PRIVATE_CTX st')
         = Some [("user_id", JStr "user_demo");
                 ("ourn", JStr "sql_10min_intro");
                 ("cohort", JStr "pilot");
                 ("ts", JStr (utcnow st (n_clock st) ++ "Z"))].
Proof.
  intros Hfail.
  assert (Hload : _load_private_context st = JObj fallback_context).
  { unfold _load_private_context.
    destruct Hfail as [-> | [-> | ->]]; reflexivity. }
  split; [exact Hload |].
  eexists. eexists. split; [apply bootstrap_session_runs; exact Hload |].
  split; [reflexivity |].
  cbn -[String.append dict_set dict_get]. rewrite dict_get_set_eq.
  reflexivity.
Qed.

Lemma loader_failure_falls_back_witness :
  _load_private_context (set_ctx_file NotJson fresh_process)
  = JObj [("user_id", JStr "user_demo"); ("ourn", JStr "sql_10min_intro");
          ("cohort", JStr "pilot")]
  /\ exists payload st',
      bootstrap_session (Some ["cohort"]) (set_ctx_file NotJson fresh_process)
      = (Ok payload, st')
      /\ _ACTIVE_SESSION_ID st' = Some "sess_0a1b2c3d"
      /\ dict_get "sess_0a1b2c3d" (_PRIVATE_CTX st')
         = Some [("user_id", JStr "user_demo");
                 ("ourn", JStr "sql_10min_intro");
                 ("cohort", JStr "pilot");
                 ("ts", JStr "2024-05-01T10:00:00Z")].
Proof.
  apply (loader_failure_falls_back
           (Some ["cohort"]) (set_ctx_file NotJson fresh_process)).
  right. right. reflexivity.
Defined.

Lemma dict_get_absent {V} (k : string) (d : list (string * V)) :
  ~ In k (dict_keys d) -> dict_get k d = None.
Proof.
  intros Hk. rewrite <- dict_mem_keys in Hk. unfold dict_mem in Hk.
  destruct (dict_get k d); [exfalso; auto | reflexivity].
Qed.

(** C2, as the code has it: the projection is taken from the context stored
    for the session, which is the private context with [ts] set to the
    creation time.  Provided [expose] does not name a [session_id] field of
    the private context, the return value holds the new session id and, of
    the stored fields, exactly those named in [expose]; the line appended to
    the log is the session-start marker below, and it is the same line
    whatever the context file holds and whatever is exposed. *)
Theorem bootstrap_exposes_only_the_allowlist
  (expose : option (list string)) (st : state) (private_ctx : dict) :
  _load_private_context st = JObj private_ctx ->
  ~ (In "session_id" (match expose with Some ks => ks | None => [] end)
     /\ In "session_id" (dict_keys private_ctx)) ->
  let sid := "sess_" ++ token_hex st (n_token st) in
  let stored :=
    dict_set "ts" (JStr (utcnow st (n_clock st) ++ "Z")) private_ctx in
  exists payload st',
    bootstrap_session expose st = (Ok payload, st')
    /\ exposes_exactly stored
                       (match expose with Some ks => ks | None => [] end)
                       sid payload
    /\ log_file st'
       = Some (_iter_events st
               ++ [Record (JObj
                     [("id", JStr ("evt_" ++ uuid4_hex st (n_uuid st)));
                      ("ts", JStr (utcnow st (S (n_clock st)) ++ "Z"));
                      ("actor", JStr "system");
                      ("session_id", JStr sid);
                      ("activity_id", JNull);
                      ("thread_id", JNull);
                      ("kind", JStr "state");
                      ("tags", JArr [JStr "session_start"]);
                      ("data", JObj [("meta", JStr "started")])])])%list
    /\ forall (other : context_file) (expose2 : option (list string))
              (payload2 : dict) (st2 : state),
         bootstrap_session expose2 (set_ctx_file other st) = (Ok payload2, st2) ->
         log_file st2 = log_file st'.
Proof.
  intros Hload Hclash sid stored.
  eexists. eexists. split; [apply bootstrap_session_runs; exact Hload |].
  split; [| split].
  - split.
    + apply expose_fold_NoDup. simpl. constructor; [intros [] | constructor].
    + intros k. rewrite expose_fold_get. fold stored. fold sid.
      destruct (String.eqb_spec k "session_id") as [-> | Hne].
      * destruct (str_in "session_id"
                         match expose with Some ks => ks | None => [] end) eqn:E;
          [| reflexivity].
        apply str_in_In in E.
        unfold stored. rewrite dict_get_set_ne by discriminate.
        rewrite dict_get_absent; [reflexivity |].
        intros Hin. apply Hclash. split; assumption.
      * simpl. destruct (String.eqb_spec k "session_id"); [contradiction |].
        destruct (str_in k match expose with Some ks => ks | None => [] end);
          [| reflexivity].
        now destruct (dict_get k stored).
  - reflexivity.
  - intros other expose2 payload2 st2 Hrun.
    destruct (bootstrap_session_needs_mapping _ _ _ _ Hrun) as [base2 Hload2].
    rewrite (bootstrap_session_runs expose2 _ base2 Hload2) in Hrun.
    injection Hrun as _ <-. reflexivity.
Qed.

Lemma bootstrap_exposes_only_the_allowlist_witness :
  exists payload st',
    bootstrap_session (Some ["cohort"]) with_context = (Ok payload, st')
    /\ exposes_exactly
         [("user_id", JStr "u1"); ("ourn", JStr "o1"); ("cohort", JStr "pilot");
          ("ts", JStr "2024-05-01T10:00:00Z")]
         ["cohort"] "sess_0a1b2c3d" payload
    /\ log_file st'
       = Some [Record (JObj
                 [("id", JStr "evt_00112233445566778899aabbccddeeff");
                  ("ts", JStr "2024-05-01T10:00:00Z");
                  ("actor", JStr "system");
                  ("session_id", JStr "sess_0a1b2c3d");
                  ("activity_id", JNull);
                  ("thread_id", JNull);
                  ("kind", JStr "state");
                  ("tags", JArr [JStr "session_start"]);
                  ("data", JObj [("meta", JStr "started")])])]
    /\ forall (other : context_file) (expose2 : option (list string))
              (payload2 : dict) (st2 : state),
         bootstrap_session expose2 (set_ctx_file other with_context)
         = (Ok payload2, st2) ->
         log_file st2 = log_file st'.
Proof.
  apply (bootstrap_exposes_only_the_allowlist
           (Some ["cohort"]) with_context
           [("user_id", JStr "u1"); ("ourn", JStr "o1"); ("cohort", JStr "pilot")]).
  - reflexivity.
  - simpl. intros [[H | []] _]. discriminate H.
Defined.

(** C2 as it is worded fails: with [expose = ["ts"]] the return value holds
    a [ts] field although the private context has none. *)
Lemma bootstrap_exposes_creation_time :
  exists payload st',
    _load_private_context with_context
    = JObj [("user_id", JStr "u1"); ("ourn", JStr "o1"); ("cohort", JStr "pilot")]
    /\ bootstrap_session (Some ["ts"]) with_context = (Ok payload, st')
    /\ ~ exposes_exactly
           [("user_id", JStr "u1"); ("ourn", JStr "o1"); ("cohort", JStr "pilot")]
           ["ts"] "sess_0a1b2c3d" payload.
Proof.
  eexists. eexists. split; [reflexivity |].
  split; [vm_compute; reflexivity |].
  intros [_ H]. specialize (H "ts"). vm_compute in H. discriminate H.
Qed.

(** ** [start_thread] *)







(** ** [list_events] *)

Lemma effective_limit_clamp (limit : Z) :
  effective_limit limit = Z.min (Z.max limit 1) 2000.
Proof. unfold effective_limit. lia. Qed.

Lemma effective_limit_pos (limit : Z) : 1 <= effective_limit limit.
Proof. unfold effective_limit. lia. Qed.

Lemma records_app (l1 l2 : list line) :
  records (l1 ++ l2) = (records l1 ++ records l2)%list.
Proof. unfold records. apply flat_map_app. Qed.

Section QueryProofs.
Variable fromisoformat : string -> option datetime.
Variables session_id activity_id thread_id : option string.
Variable kinds : option (list string).
Variables since until : option string.
Variable limit : Z.

Let kinds_set : list string :=
  match kinds with Some ks => ks | None => [] end.
Let run (ts_since ts_until : option datetime) :=
  scan fromisoformat session_id activity_id thread_id kinds_set
       ts_since ts_until limit.
Let L : Z := effective_limit limit.

(** *** The loop, whatever the lines hold *)

(** The result never grows past the limit. *)
Lemma scan_length (ts_since ts_until : option datetime) (lines : list line) :
  forall out count out',
    count = Z.of_nat (length out) -> count < L ->
    run ts_since ts_until lines out count = Ok out' ->
    Z.of_nat (length out') <= L.
Proof.
  unfold run.
  induction lines as [| l lines IH]; intros out count out' Hc Hlt Hrun;
    simpl in Hrun.
  - injection Hrun as <-. lia.
  - destruct l as [| | ev]; [eauto | discriminate |].
    destruct (loop_body _ _ _ _ _ _ _ ev) as [[|] | e]; simpl in Hrun;
      [| eauto | discriminate].
    destruct (count + 1 >=? effective_limit limit) eqn:E;
      rewrite Z.geb_leb in E; fold L in E.
    + injection Hrun as <-. rewrite length_app. simpl. lia.
    + apply (IH (out ++ [ev])%list (count + 1) out');
        [rewrite length_app; simpl; lia | lia | exact Hrun].
Qed.

(** What lines appended to the log change: nothing once the scan of the
    first part raised or filled the page, and otherwise the scan goes on
    from where the first part left it. *)
Lemma scan_app (ts_since ts_until : option datetime)
      (lines more : list line) :
  forall out count,
    count = Z.of_nat (length out) -> count < L ->
    match run ts_since ts_until lines out count with
    | Raise e => run ts_since ts_until (lines ++ more) out count = Raise e
    | Ok out' =>
        if Z.of_nat (length out') <? L
        then run ts_since ts_until (lines ++ more) out count
             = run ts_since ts_until more out' (Z.of_nat (length out'))
        else run ts_since ts_until (lines ++ more) out count = Ok out'
    end.
Proof.
  unfold run.
  induction lines as [| l lines IH]; intros out count Hc Hlt; simpl.
  - destruct (Z.of_nat (length out) <? L) eqn:E;
      [now subst | exfalso; lia].
  - destruct l as [| | ev]; [now apply IH | reflexivity |].
    destruct (loop_body _ _ _ _ _ _ _ ev) as [[|] | e]; simpl;
      [| now apply IH | reflexivity].
    destruct (count + 1 >=? effective_limit limit) eqn:E;
      rewrite Z.geb_leb in E; fold L in E.
    + rewrite length_app. simpl.
      destruct (Z.of_nat (length out + 1) <? L) eqn:E';
        [exfalso; lia | reflexivity].
    + apply IH; [rewrite length_app; simpl; lia | lia].
Qed.

(** *** The loop on a log of well-formed events *)

Lemma skip_on_object (flt : option string) (d : dict) (k : string) :
  skip_on flt (JObj d) k = Ok (negb (field_matches flt (JObj d) k)).
Proof.
  unfold skip_on, field_matches. destruct flt as [s |]; [| reflexivity].
  destruct (String.eqb s ""); [reflexivity |]. simpl.
  destruct (dict_get k d) as [[] |]; reflexivity.
Qed.

Lemma kind_guard_object (d : dict) :
  match dict_get "kind" d with
  | Some (JArr _) | Some (JObj _) => false
  | _ => true
  end = true ->
  match kinds_set with
  | [] => Ok false
  | _ :: _ => rbind (py_get (JObj d) "kind")
                    (fun v => not_in_set v kinds_set)
  end = Ok (negb (kind_matches kinds (JObj d))).
Proof.
  unfold kinds_set, kind_matches. intros Hk.
  destruct kinds as [[| k0 ks] |]; try reflexivity. simpl.
  destruct (dict_get "kind" d) as [[] |]; try reflexivity; discriminate.
Qed.

Lemma parse_ts_ok (s : option string) :
  bound_ok fromisoformat s = true ->
  parse_ts fromisoformat s = Ok (bound_time fromisoformat s).
Proof.
  unfold bound_ok, parse_ts, bound_time, py_fromisoformat.
  destruct s as [t |]; [| reflexivity].
  destruct (String.eqb t ""); [reflexivity |].
  destruct (fromisoformat (replace_Z t)); [reflexivity | discriminate].
Qed.

Lemma bound_time_naive (s : option string) (t : datetime) :
  bound_ok fromisoformat s = true ->
  bound_time fromisoformat s = Some t -> utcoffset t = None.
Proof.
  unfold bound_ok, bound_time. destruct s as [txt |]; [| discriminate].
  destruct (String.eqb txt ""); [discriminate |].
  intros Hn Ht. rewrite Ht in Hn. simpl in Hn.
  now destruct (utcoffset t).
Qed.

Hypothesis since_ok : bound_ok fromisoformat since = true.
Hypothesis until_ok : bound_ok fromisoformat until = true.

Lemma loop_body_ok (ev : json) :
  event_ok fromisoformat ev = true ->
  loop_body fromisoformat session_id activity_id thread_id kinds_set
            (bound_time fromisoformat since) (bound_time fromisoformat until)
            ev
  = Ok (satisfies fromisoformat session_id activity_id thread_id kinds
                  since until ev).
Proof.
  unfold event_ok. destruct ev as [| | | | | | d]; try discriminate.
  intros Hok. apply andb_prop in Hok. destruct Hok as [Hts Hkind].
  unfold loop_body, satisfies.
  rewrite !skip_on_object, (kind_guard_object d Hkind).
  destruct (field_matches session_id (JObj d) "session_id");
    [| reflexivity].
  destruct (field_matches activity_id (JObj d) "activity_id");
    [| reflexivity].
  destruct (field_matches thread_id (JObj d) "thread_id"); [| reflexivity].
  destruct (kind_matches kinds (JObj d)); [| reflexivity].
  simpl. unfold in_window.
  unfold event_time in *.
  destruct (dict_get "ts" d) as [[| | | | s | |] |]; try discriminate.
  simpl. unfold py_fromisoformat.
  destruct (fromisoformat (replace_Z s)) as [t |]; [| discriminate].
  simpl in Hts. destruct (utcoffset t) eqn:Ht; [discriminate |].
  simpl.
  pose proof (bound_time_naive since) as Hs.
  pose proof (bound_time_naive until) as Hu.
  destruct (bound_time fromisoformat since) as [t0 |];
    destruct (bound_time fromisoformat until) as [t1 |]; simpl;
    unfold dt_lt; rewrite ?Ht;
    try rewrite (Hs t0 since_ok eq_refl);
    try rewrite (Hu t1 until_ok eq_refl); simpl.
  - destruct (wall t <? wall t0) eqn:E1; simpl.
    + replace (wall t0 <=? wall t) with false by lia. reflexivity.
    + replace (wall t0 <=? wall t) with true by lia. simpl.
      destruct (wall t1 <? wall t) eqn:E2; simpl.
      * replace (wall t <=? wall t1) with false by lia. reflexivity.
      * replace (wall t <=? wall t1) with true by lia. reflexivity.
  - destruct (wall t <? wall t0) eqn:E1; simpl.
    + replace (wall t0 <=? wall t) with false by lia. reflexivity.
    + replace (wall t0 <=? wall t) with true by lia. reflexivity.
  - destruct (wall t1 <? wall t) eqn:E2; simpl.
    + replace (wall t <=? wall t1) with false by lia. reflexivity.
    + replace (wall t <=? wall t1) with true by lia. reflexivity.
  - reflexivity.
Qed.

Lemma scan_ok (lines : list line) :
  forallb (line_ok fromisoformat) lines = true ->
  forall out count,
    count = Z.of_nat (length out) -> count < L ->
    run (bound_time fromisoformat since) (bound_time fromisoformat until)
        lines out count
    = Ok (out ++ firstn (Z.to_nat (L - count))
                        (filter (satisfies fromisoformat session_id
                                           activity_id thread_id kinds
                                           since until)
                                (records lines)))%list.
Proof.
  unfold run.
  induction lines as [| l lines IH]; intros Hall out count Hc Hlt; simpl.
  - now rewrite firstn_nil, app_nil_r.
  - simpl in Hall. apply andb_prop in Hall. destruct Hall as [Hl Hall].
    destruct l as [| | ev]; simpl in Hl; [now apply IH | discriminate |].
    rewrite (loop_body_ok ev Hl). simpl.
    destruct (satisfies _ _ _ _ _ _ _ ev); [| now apply IH].
    destruct (count + 1 >=? effective_limit limit) eqn:E;
      rewrite Z.geb_leb in E; fold L in E.
    + replace (Z.to_nat (L - count)) with 1%nat by lia. reflexivity.
    + rewrite (IH Hall) by (rewrite ?length_app; simpl; lia).
      replace (Z.to_nat (L - count)) with (S (Z.to_nat (L - (count + 1))))
        by lia.
      simpl. now rewrite <- app_assoc.
Qed.
End QueryProofs.

Lemma rbind_ok {A B} (a : A) (k : A -> result B) : rbind (Ok a) k = k a.
Proof. reflexivity. Qed.

Lemma kind_guard_passes (kinds : option (list string)) (d : dict) :
  kind_matches kinds (JObj d) = true ->
  match match kinds with Some ks => ks | None => [] end with
  | [] => Ok false
  | _ :: _ =>
      rbind (py_get (JObj d) "kind")
            (fun v => not_in_set v
                        (match kinds with Some ks => ks | None => [] end))
  end = Ok false.
Proof.
  unfold kind_matches. destruct kinds as [[| k0 ks] |]; try reflexivity.
  simpl. destruct (dict_get "kind" d) as [[] |]; try discriminate.
  simpl. intros ->. reflexivity.
Qed.

Lemma loop_body_unreadable
  (fromisoformat : string -> option datetime)
  (session_id activity_id thread_id : option string)
  (kinds : option (list string)) (ts_since ts_until : option datetime)
  (d : dict) :
  field_matches session_id (JObj d) "session_id"
  && field_matches activity_id (JObj d) "activity_id"
  && field_matches thread_id (JObj d) "thread_id"
  && kind_matches kinds (JObj d) = true ->
  event_time fromisoformat (JObj d) = None ->
  exists e,
    loop_body fromisoformat session_id activity_id thread_id
              (match kinds with Some ks => ks | None => [] end)
              ts_since ts_until (JObj d) = Raise e.
Proof.
  intros Hpass Hts.
  apply andb_prop in Hpass. destruct Hpass as [Hpass Hk].
  apply andb_prop in Hpass. destruct Hpass as [Hpass Ht].
  apply andb_prop in Hpass. destruct Hpass as [Hs Ha].
  unfold loop_body.
  rewrite skip_on_object, Hs, rbind_ok; simpl negb; cbv beta iota.
  rewrite skip_on_object, Ha, rbind_ok; simpl negb; cbv beta iota.
  rewrite skip_on_object, Ht, rbind_ok; simpl negb; cbv beta iota.
  rewrite (kind_guard_passes kinds d Hk), rbind_ok; cbv beta iota.
  unfold event_time in Hts. unfold py_getitem, py_replace_Z, py_fromisoformat.
  destruct (dict_get "ts" d) as [[| | | | s | |] |]; try (eexists; reflexivity).
  simpl. rewrite Hts. eexists; reflexivity.
Qed.

Lemma list_events_rows_ok
  (fromisoformat : string -> option datetime)
  (session_id activity_id thread_id : option string)
  (kinds : option (list string)) (since until : option string)
  (limit : Z) (st : state) :
  forallb (line_ok fromisoformat) (_iter_events st) = true ->
  bound_ok fromisoformat since = true ->
  bound_ok fromisoformat until = true ->
  list_events fromisoformat session_id activity_id thread_id kinds
              since until limit st
  = (Ok (firstn (Z.to_nat (effective_limit limit))
                (filter (satisfies fromisoformat session_id activity_id
                                   thread_id kinds since until)
                        (records (_iter_events st)))),
     st).
Proof.
  intros Hlog Hsince Huntil. unfold list_events.
  rewrite (parse_ts_ok _ _ Hsince), (parse_ts_ok _ _ Huntil). simpl rbind.
  rewrite (scan_ok fromisoformat session_id activity_id thread_id kinds
                   since until limit Hsince Huntil _ Hlog [] 0 eq_refl)
    by (pose proof (effective_limit_pos limit); lia).
  rewrite Z.sub_0_r. reflexivity.
Qed.

(** C3, for the logs the server writes: when every line of the log is blank
    or a well-formed event, and [since] and [until] are absent, empty or
    naive timestamps, [list_events] returns, in file order, the events that
    satisfy every supplied filter, cut after the first
    [min(max(limit, 1), 2000)] of them, and changes nothing. *)
Theorem list_events_returns_the_matching_events
  (fromisoformat : string -> option datetime)
  (session_id activity_id thread_id : option string)
  (kinds : option (list string)) (since until : option string)
  (limit : Z) (st : state) :
  forallb (line_ok fromisoformat) (_iter_events st) = true ->
  bound_ok fromisoformat since = true ->
  bound_ok fromisoformat until = true ->
  list_events fromisoformat session_id activity_id thread_id kinds
              since until limit st
  = (Ok (firstn (Z.to_nat (Z.min (Z.max limit 1) 2000))
                (filter (satisfies fromisoformat session_id activity_id
                                   thread_id kinds since until)
                        (records (_iter_events st)))),
     st).
Proof.
  intros Hlog Hsince Huntil. rewrite <- effective_limit_clamp.
  now apply list_events_rows_ok.
Qed.

Lemma list_events_returns_the_matching_events_witness :
  list_events fromisoformat_seconds None None None (Some ["note"])
              (Some "2024-05-01T10:00:00Z") None 200 (with_log three_events)
  = (Ok [note_at "evt_0" "2024-05-01T10:00:00Z";
         note_at "evt_2" "2024-05-01T10:00:09Z"],
     with_log three_events).
Proof.
  apply (list_events_returns_the_matching_events
           fromisoformat_seconds None None None (Some ["note"])
           (Some "2024-05-01T10:00:00Z") None 200 (with_log three_events));
    vm_compute; reflexivity.
Defined.

(** C3 as it is worded fails: three events satisfy the (absent) filters, yet
    nothing is returned, because a later line has no [ts]. *)
Lemma list_events_lost_to_an_undated_record :
  filter (satisfies fromisoformat_seconds None None None None None None)
         (records three_events)
  = [note_at "evt_0" "2024-05-01T10:00:00Z";
     metric_at "evt_1" "2024-05-01T10:00:05Z";
     note_at "evt_2" "2024-05-01T10:00:09Z"]
  /\ list_events fromisoformat_seconds None None None None None None 200
                 (with_log (three_events ++ [Record undated]))
     = (Raise KeyError, with_log (three_events ++ [Record undated])).
Proof. split; vm_compute; reflexivity. Qed.

(** C5: whatever the log holds and whatever [limit] is, a result of
    [list_events] has at most [min(max(limit, 1), 2000)] events, so at most
    one for [limit = 0] and at most 2000 for [limit = 5000]; once a result
    has that many, lines that follow in the log are not looked at, and on
    a log of well-formed events a result is returned. *)
Theorem list_events_is_bounded
  (fromisoformat : string -> option datetime)
  (session_id activity_id thread_id : option string)
  (kinds : option (list string)) (since until : option string)
  (st : state) :
  (forall limit out,
      fst (list_events fromisoformat session_id activity_id thread_id kinds
                       since until limit st) = Ok out ->
      Z.of_nat (length out) <= Z.min (Z.max limit 1) 2000)
  /\ (forall out,
         fst (list_events fromisoformat session_id activity_id thread_id kinds
                          since until 0 st) = Ok out ->
         (length out <= 1)%nat)
  /\ (forall out,
         fst (list_events fromisoformat session_id activity_id thread_id kinds
                          since until 5000 st) = Ok out ->
         (length out <= 2000)%nat)
  /\ (forall limit out more,
         fst (list_events fromisoformat session_id activity_id thread_id kinds
                          since until limit st) = Ok out ->
         Z.of_nat (length out) = Z.min (Z.max limit 1) 2000 ->
         fst (list_events fromisoformat session_id activity_id thread_id kinds
                          since until limit
                          (set_log (Some (_iter_events st ++ more)%list) st))
         = Ok out)
  /\ (forall limit,
         forallb (line_ok fromisoformat) (_iter_events st) = true ->
         bound_ok fromisoformat since = true ->
         bound_ok fromisoformat until = true ->
         exists out,
           fst (list_events fromisoformat session_id activity_id thread_id
                            kinds since until limit st) = Ok out).
Proof.
  assert (Hbound : forall limit out,
             fst (list_events fromisoformat session_id activity_id thread_id
                              kinds since until limit st) = Ok out ->
             Z.of_nat (length out) <= Z.min (Z.max limit 1) 2000).
  { intros limit out. unfold list_events. simpl fst.
    destruct (parse_ts fromisoformat since) as [ts_since | e];
      [| discriminate].
    destruct (parse_ts fromisoformat until) as [ts_until | e];
      [| discriminate].
    simpl rbind. intros Hrun. rewrite <- effective_limit_clamp.
    pose proof (effective_limit_pos limit) as Hpos.
    eapply scan_length; [| | exact Hrun]; [reflexivity | lia]. }
  split; [exact Hbound |].
  split; [intros out H; apply Hbound in H; simpl in H; lia |].
  split; [intros out H; apply Hbound in H; simpl in H; lia |].
  split.
  - intros limit out more. unfold list_events. simpl fst.
    destruct (parse_ts fromisoformat since) as [ts_since | e];
      [| discriminate].
    destruct (parse_ts fromisoformat until) as [ts_until | e];
      [| discriminate].
    simpl rbind. intros Hrun Hfull.
    pose proof (effective_limit_pos limit) as Hpos.
    pose proof (scan_app fromisoformat session_id activity_id thread_id kinds
                         limit ts_since ts_until (_iter_events st) more [] 0
                         eq_refl ltac:(lia))
      as Happ.
    cbv beta zeta in Happ. rewrite Hrun in Happ.
    rewrite <- effective_limit_clamp in Hfull.
    destruct (Z.of_nat (length out) <? effective_limit limit) eqn:E;
      [exfalso; lia | exact Happ].
  - intros limit Hlog Hsince Huntil. eexists.
    rewrite (list_events_rows_ok fromisoformat session_id activity_id
                                 thread_id kinds since until limit st
                                 Hlog Hsince Huntil).
    reflexivity.
Qed.

(** C8, as the code has it: while the log file does not exist the scan
    yields nothing, and [list_events] returns the empty list for every
    choice of filters whose [since] and [until] are absent, empty or read as
    timestamps. *)
Theorem list_events_without_a_log_file
  (fromisoformat : string -> option datetime)
  (session_id activity_id thread_id : option string)
  (kinds : option (list string)) (since until : option string)
  (limit : Z) (st : state) :
  log_file st = None ->
  bound_parses fromisoformat since = true ->
  bound_parses fromisoformat until = true ->
  _iter_events st = []
  /\ list_events fromisoformat session_id activity_id thread_id kinds
                 since until limit st
     = (Ok [], st).
Proof.
  intros Hnone Hsince Huntil.
  assert (Hscan : _iter_events st = [])
    by (unfold _iter_events; now rewrite Hnone).
  split; [exact Hscan |].
  unfold list_events, bound_parses in *. rewrite Hscan.
  destruct (parse_ts fromisoformat since); [| discriminate].
  destruct (parse_ts fromisoformat until); [| discriminate].
  reflexivity.
Qed.

Lemma list_events_without_a_log_file_witness :
  _iter_events fresh_process = []
  /\ list_events fromisoformat_seconds (Some "sess_0a1b2c3d") None None
                 (Some ["note"]) (Some "2024-05-01T10:00:00Z") None 50
                 fresh_process
     = (Ok [], fresh_process).
Proof.
  apply (list_events_without_a_log_file
           fromisoformat_seconds (Some "sess_0a1b2c3d") None None
           (Some ["note"]) (Some "2024-05-01T10:00:00Z") None 50
           fresh_process);
    reflexivity.
Defined.

(** C8 as it is worded fails: with no log file and a [since] that is not a
    timestamp, [list_events] raises. *)
Lemma list_events_without_a_log_file_bad_since :
  log_file fresh_process = None
  /\ list_events fromisoformat_seconds None None None None
                 (Some "yesterday") None 200 fresh_process
     = (Raise ValueError, fresh_process).
Proof. split; reflexivity. Qed.

(** C10, as the code has it: the [ts] of a record is read only when the
    scan reaches the record and the record passes the identity and kind
    filters.  If such a record has no [ts] that reads as a timestamp, and
    the lines before it do not already fill the page, [list_events]
    raises, with or without a time window. *)
Theorem list_events_fails_on_unreadable_ts
  (fromisoformat : string -> option datetime)
  (session_id activity_id thread_id : option string)
  (kinds : option (list string)) (since until : option string)
  (limit : Z) (st : state)
  (before after : list line) (d : dict) :
  log_file st = Some (before ++ Record (JObj d) :: after)%list ->
  field_matches session_id (JObj d) "session_id"
  && field_matches activity_id (JObj d) "activity_id"
  && field_matches thread_id (JObj d) "thread_id"
  && kind_matches kinds (JObj d) = true ->
  event_time fromisoformat (JObj d) = None ->
  (forall out,
      fst (list_events fromisoformat session_id activity_id thread_id kinds
                       since until limit (set_log (Some before) st)) = Ok out ->
      Z.of_nat (length out) < Z.min (Z.max limit 1) 2000) ->
  exists e,
    list_events fromisoformat session_id activity_id thread_id kinds
                since until limit st
    = (Raise e, st).
Proof.
  intros Hlog Hpass Hts Hroom. unfold list_events in *.
  unfold _iter_events in *. rewrite Hlog. simpl in Hroom.
  destruct (parse_ts fromisoformat since) as [ts_since | e];
    [| now exists e].
  destruct (parse_ts fromisoformat until) as [ts_until | e];
    [| now exists e].
  simpl rbind in *.
  pose proof (effective_limit_pos limit) as Hpos.
  pose proof (scan_app fromisoformat session_id activity_id thread_id kinds
                       limit ts_since ts_until before
                       (Record (JObj d) :: after) [] 0 eq_refl ltac:(lia))
    as Happ.
  cbv beta zeta in Happ.
  destruct (scan fromisoformat session_id activity_id thread_id
                 match kinds with Some ks => ks | None => [] end
                 ts_since ts_until limit before [] 0) as [out | e].
  - specialize (Hroom out eq_refl). rewrite <- effective_limit_clamp in Hroom.
    destruct (Z.of_nat (length out) <? effective_limit limit) eqn:E;
      [| exfalso; lia].
    rewrite Happ. simpl scan.
    destruct (loop_body_unreadable fromisoformat session_id activity_id
                                   thread_id kinds ts_since ts_until d
                                   Hpass Hts) as [e He].
    rewrite He. now exists e.
  - rewrite Happ. now exists e.
Qed.

Lemma list_events_fails_on_unreadable_ts_witness :
  exists e,
    list_events fromisoformat_seconds None None None (Some ["note"]) None None 4
                (with_log (three_events ++ [Record undated]))
    = (Raise e, with_log (three_events ++ [Record undated])).
Proof.
  apply (list_events_fails_on_unreadable_ts
           fromisoformat_seconds None None None (Some ["note"]) None None 4
           (with_log (three_events ++ [Record undated]))
           three_events []
           [("id", JStr "evt_3"); ("session_id", JStr "sess_0a1b2c3d");
            ("kind", JStr "note")]).
  - reflexivity.
  - reflexivity.
  - reflexivity.
  - intros out Hout. vm_compute in Hout. injection Hout as <-.
    vm_compute. reflexivity.
Defined.

(** C10 as it is worded fails: the log holds a record without [ts] that
    passes the (absent) filters, and [list_events] returns, because the
    page of three is full before the scan reaches it. *)
Lemma list_events_stops_before_an_undated_record :
  In (Record undated) (three_events ++ [Record undated])
  /\ event_time fromisoformat_seconds undated = None
  /\ list_events fromisoformat_seconds None None None None None None 3
                 (with_log (three_events ++ [Record undated]))
     = (Ok [note_at "evt_0" "2024-05-01T10:00:00Z";
            metric_at "evt_1" "2024-05-01T10:00:05Z";
            note_at "evt_2" "2024-05-01T10:00:09Z"],
        with_log (three_events ++ [Record undated])).
Proof.
  split; [| split; vm_compute; reflexivity].
  apply in_or_app. right. left. reflexivity.
Qed.

(** ** The scenarios of the specification, run on the model *)

(** Events of kinds note, metric, note are appended after a bootstrap;
    [list_events(kinds=["note"])] then returns the two notes in the order
    they were appended. *)
Example notes_in_append_order :
  let run :=
    (bootstrap_session None ;;;
     append_event "act1" "thr_1" "note" [] None None None None None ;;;
     append_event "act1" "thr_1" "metric" [] None None None None None ;;;
     append_event "act1" "thr_1" "note" [] None None None None None ;;;
     list_events fromisoformat_seconds None None None (Some ["note"])
                 None None 200) in
  match fst (run fresh_process) with
  | Ok [e1; e2] =>
      py_get e1 "id" = Ok (JStr "evt_a1b2c3d4e5f60718293a4b5c6d7e8f90")
      /\ py_get e1 "kind" = Ok (JStr "note")
      /\ py_get e2 "kind" = Ok (JStr "note")
  | _ => False
  end.
Proof. vm_compute. repeat split. Qed.

(** [expose=["cohort"]] on the private context of the specification returns
    the session id and the cohort, and neither [user_id] nor [ourn]. *)
Example bootstrap_scenario :
  fst (bootstrap_session (Some ["cohort"]) with_context)
  = Ok [("session_id", JStr "sess_0a1b2c3d"); ("cohort", JStr "pilot")].
Proof. reflexivity. Qed.

(** A context file that holds JSON other than an object is not a loader
    failure, and [bootstrap_session] raises on it. *)
Example bootstrap_on_a_list :
  fst (bootstrap_session None (set_ctx_file (Document (JArr [])) fresh_process))
  = Raise TypeError.
Proof. reflexivity. Qed.

(** A private context with its own [session_id], exposed: the value from
    the file takes the place of the session id in the return value. *)
Example bootstrap_session_id_clash :
  fst (bootstrap_session
         (Some ["session_id"])
         (set_ctx_file (Document (JObj [("session_id", JStr "x")]))
                       fresh_process))
  = Ok [("session_id", JStr "x")].
Proof. reflexivity. Qed.

(** [limit=0] returns one event and [limit=5000] all three. *)
Example limit_clamped :
  (exists e, fst (list_events fromisoformat_seconds None None None None
                              None None 0 (with_log three_events)) = Ok [e])
  /\ (exists e1 e2 e3,
         fst (list_events fromisoformat_seconds None None None None
                          None None 5000 (with_log three_events))
         = Ok [e1; e2; e3]).
Proof. split; vm_compute; repeat eexists. Qed.

(** ** What each writing tool does to the state *)

Lemma append_event_without_session
  (activity_id thread_id kind : string) (data : dict)
  (tags : option (list string)) (actor : option string)
  (confidence : option Z) (supersedes session_id : option string)
  (st : state) :
  resolved session_id st = "" ->
  append_event activity_id thread_id kind data tags actor confidence
               supersedes session_id st
  = (Ok no_session_error, st).
Proof.
  unfold resolved, append_event.
  destruct (or_str session_id (_ACTIVE_SESSION_ID st)) as [sid |];
    [| reflexivity].
  intros ->. reflexivity.
Qed.

Lemma append_event_bad_kind
  (activity_id thread_id kind : string) (data : dict)
  (tags : option (list string)) (actor : option string)
  (confidence : option Z) (supersedes session_id : option string)
  (st : state) :
  resolved session_id st <> "" ->
  str_in kind KINDS = false ->
  append_event activity_id thread_id kind data tags actor confidence
               supersedes session_id st
  = (Ok (invalid_kind_error kind), st).
Proof.
  unfold resolved, append_event.
  destruct (or_str session_id (_ACTIVE_SESSION_ID st)) as [sid |];
    [| intros H; now contradiction H].
  intros Hne Hkind. destruct (String.eqb_spec sid ""); [contradiction |].
  now rewrite Hkind.
Qed.

Lemma append_event_runs
  (activity_id thread_id kind : string) (data : dict)
  (tags : option (list string)) (actor : option string)
  (confidence : option Z) (supersedes session_id : option string)
  (st : state) :
  resolved session_id st <> "" ->
  str_in kind KINDS = true ->
  let ev :=
    observation_event (resolved session_id st) activity_id thread_id kind
                      data tags actor confidence supersedes
                      (uuid4_hex st (n_uuid st))
                      (utcnow st (n_clock st) ++ "Z") in
  append_event activity_id thread_id kind data tags actor confidence
               supersedes session_id st
  = (Ok ev, after_write 1 ev st).
Proof.
  unfold resolved, append_event.
  destruct (or_str session_id (_ACTIVE_SESSION_ID st)) as [sid |];
    [| intros H; now contradiction H].
  intros Hne Hkind. destruct (String.eqb_spec sid ""); [contradiction |].
  rewrite Hkind. reflexivity.
Qed.

Lemma start_thread_without_session
  (activity_id : string) (session_id : option string)
  (metadata : option dict) (st : state) :
  resolved session_id st = "" ->
  start_thread activity_id session_id metadata st = (Ok no_session_error, st).
Proof.
  unfold resolved, start_thread.
  destruct (or_str session_id (_ACTIVE_SESSION_ID st)) as [sid |];
    [| reflexivity].
  intros ->. reflexivity.
Qed.

Lemma start_thread_runs
  (activity_id : string) (session_id : option string)
  (metadata : option dict) (st : state) :
  resolved session_id st <> "" ->
  let thread_id := "thr_" ++ first8 (uuid4_hex st (n_uuid st)) in
  let ev :=
    thread_start_event (resolved session_id st) activity_id thread_id
                       (uuid4_hex st (S (n_uuid st)))
                       (utcnow st (n_clock st) ++ "Z") metadata in
  start_thread activity_id session_id metadata st
  = (Ok [("session_id", JStr (resolved session_id st));
         ("thread_id", JStr thread_id); ("event", JObj ev)],
     after_write 2 ev st).
Proof.
  unfold resolved, start_thread.
  destruct (or_str session_id (_ACTIVE_SESSION_ID st)) as [sid |];
    [| intros H; now contradiction H].
  intros Hne. destruct (String.eqb_spec sid ""); [contradiction |].
  reflexivity.
Qed.

Lemma bootstrap_session_raises (expose : option (list string)) (st : state) :
  loads_mapping st = false ->
  bootstrap_session expose st
  = (Raise TypeError,
     mkState (_PRIVATE_CTX st) (_ACTIVE_SESSION_ID st) (log_file st)
             (ctx_file st) (token_hex st) (uuid4_hex st) (utcnow st)
             (S (n_token st)) (n_uuid st) (n_clock st)).
Proof.
  unfold loads_mapping, bootstrap_session, bind at 1.
  destruct (_load_private_context st); try discriminate; reflexivity.
Qed.

(** The three ways [append_event] can end. *)
Lemma append_event_cases
  (activity_id thread_id kind : string) (data : dict)
  (tags : option (list string)) (actor : option string)
  (confidence : option Z) (supersedes session_id : option string)
  (st : state) :
  append_event activity_id thread_id kind data tags actor confidence
               supersedes session_id st = (Ok no_session_error, st)
  \/ append_event activity_id thread_id kind data tags actor confidence
                  supersedes session_id st = (Ok (invalid_kind_error kind), st)
  \/ (resolved session_id st <> "" /\ str_in kind KINDS = true
      /\ append_event activity_id thread_id kind data tags actor confidence
                      supersedes session_id st
         = (Ok (observation_event
                  (resolved session_id st) activity_id thread_id kind
                  data tags actor confidence supersedes
                  (uuid4_hex st (n_uuid st))
                  (utcnow st (n_clock st) ++ "Z")),
            after_write 1
              (observation_event
                 (resolved session_id st) activity_id thread_id kind
                 data tags actor confidence supersedes
                 (uuid4_hex st (n_uuid st))
                 (utcnow st (n_clock st) ++ "Z")) st)).
Proof.
  destruct (String.eqb_spec (resolved session_id st) "") as [He | Hne].
  - left. now apply append_event_without_session.
  - destruct (str_in kind KINDS) eqn:Hk.
    + right. right. split; [exact Hne | split; [reflexivity |]].
      now apply append_event_runs.
    + right. left. now apply append_event_bad_kind.
Qed.

Lemma start_thread_cases
  (activity_id : string) (session_id : option string)
  (metadata : option dict) (st : state) :
  start_thread activity_id session_id metadata st = (Ok no_session_error, st)
  \/ (resolved session_id st <> ""
      /\ start_thread activity_id session_id metadata st
         = (Ok [("session_id", JStr (resolved session_id st));
                ("thread_id",
                 JStr ("thr_" ++ first8 (uuid4_hex st (n_uuid st))));
                ("event",
                 JObj (thread_start_event
                         (resolved session_id st) activity_id
                         ("thr_" ++ first8 (uuid4_hex st (n_uuid st)))
                         (uuid4_hex st (S (n_uuid st)))
                         (utcnow st (n_clock st) ++ "Z") metadata))],
            after_write 2
              (thread_start_event
                 (resolved session_id st) activity_id
                 ("thr_" ++ first8 (uuid4_hex st (n_uuid st)))
                 (uuid4_hex st (S (n_uuid st)))
                 (utcnow st (n_clock st) ++ "Z") metadata) st)).
Proof.
  destruct (String.eqb_spec (resolved session_id st) "") as [He | Hne].
  - left. now apply start_thread_without_session.
  - right. split; [exact Hne |]. now apply start_thread_runs.
Qed.

Lemma bootstrap_session_cases (expose : option (list string)) (st : state) :
  (exists base,
      _load_private_context st = JObj base
      /\ bootstrap_session expose st
         = (Ok (expose_fold
                  (dict_set "ts" (JStr (utcnow st (n_clock st) ++ "Z")) base)
                  (match expose with Some ks => ks | None => [] end)
                  [("session_id", JStr ("sess_" ++ token_hex st (n_token st)))]),
            bootstrapped base st))
  \/ (loads_mapping st = false
      /\ bootstrap_session expose st
         = (Raise TypeError,
            mkState (_PRIVATE_CTX st) (_ACTIVE_SESSION_ID st) (log_file st)
                    (ctx_file st) (token_hex st) (uuid4_hex st) (utcnow st)
                    (S (n_token st)) (n_uuid st) (n_clock st))).
Proof.
  destruct (loads_mapping st) eqn:E.
  - left. unfold loads_mapping in E.
    destruct (_load_private_context st) eqn:Hload; try discriminate.
    exists fields. split; [reflexivity |].
    now apply bootstrap_session_runs.
  - right. split; [reflexivity |]. now apply bootstrap_session_raises.
Qed.

(** ** The answers of [append_event] and [start_thread] *)

(** X1: an answer of [append_event] that is not an error is the event it
    built: it comes only for a session that could be resolved and a kind
    out of [KINDS], and it carries a new [evt_] id, the clock reading
    followed by [Z], the explicit session id if there is a non-empty one
    and the active session otherwise, the arguments as they were given,
    [llm] for an absent or empty actor and the empty list for absent
    tags. *)
Theorem append_event_answers_with_the_event
  (activity_id thread_id kind : string) (data : dict)
  (tags : option (list string)) (actor : option string)
  (confidence : option Z) (supersedes session_id : option string)
  (st st' : state) (r : dict) :
  append_event activity_id thread_id kind data tags actor confidence
               supersedes session_id st = (Ok r, st') ->
  dict_mem "error" r = false ->
  resolved session_id st <> ""
  /\ In kind KINDS
  /\ r = [("id", JStr ("evt_" ++ uuid4_hex st (n_uuid st)));
          ("ts", JStr (utcnow st (n_clock st) ++ "Z"));
          ("actor", JStr (match actor with
                          | Some a => if String.eqb a "" then "llm" else a
                          | None => "llm"
                          end));
          ("session_id", JStr (resolved session_id st));
          ("activity_id", JStr activity_id);
          ("thread_id", JStr thread_id);
          ("kind", JStr kind);
          ("tags",
           JArr (map JStr (match tags with Some t => t | None => [] end)));
          ("data", JObj data);
          ("confidence",
           match confidence with Some c => JFloat c | None => JNull end);
          ("supersedes",
           match supersedes with Some s => JStr s | None => JNull end)].
Proof.
  intros Hrun Hok.
  destruct (append_event_cases activity_id thread_id kind data tags actor
                               confidence supersedes session_id st)
    as [H | [H | [Hsid [Hkind H]]]]; rewrite H in Hrun;
    injection Hrun as <- _.
  - discriminate Hok.
  - discriminate Hok.
  - split; [exact Hsid |]. split; [now apply str_in_In |].
    unfold observation_event, or_str, opt_float, opt_str.
    replace (match (if truthy_str actor then actor else Some "llm") with
             | Some a => a
             | None => "llm"
             end)
      with (match actor with
            | Some a => if String.eqb a "" then "llm" else a
            | None => "llm"
            end); [reflexivity |].
    destruct actor as [a |]; [| reflexivity]. simpl.
    now destruct (String.eqb a "").
Qed.

Lemma append_event_answers_with_the_event_witness :
  resolved (Some "sess_guest") in_session <> ""
  /\ In "hint" KINDS
  /\ [("id", JStr "evt_00112233445566778899aabbccddeeff");
      ("ts", JStr "2024-05-01T10:00:00Z");
      ("actor", JStr "llm");
      ("session_id", JStr "sess_guest");
      ("activity_id", JStr "act1");
      ("thread_id", JStr "thr_never_started");
      ("kind", JStr "hint");
      ("tags", JArr [JStr "nudge"]);
      ("data", JObj [("text", JStr "look left")]);
      ("confidence", JNull);
      ("supersedes", JNull)]
     = [("id", JStr ("evt_" ++ uuid4_hex in_session (n_uuid in_session)));
        ("ts", JStr (utcnow in_session (n_clock in_session) ++ "Z"));
        ("actor", JStr "llm");
        ("session_id", JStr (resolved (Some "sess_guest") in_session));
        ("activity_id", JStr "act1");
        ("thread_id", JStr "thr_never_started");
        ("kind", JStr "hint");
        ("tags", JArr (map JStr ["nudge"]));
        ("data", JObj [("text", JStr "look left")]);
        ("confidence", JNull);
        ("supersedes", JNull)].
Proof.
  apply (append_event_answers_with_the_event
           "act1" "thr_never_started" "hint" [("text", JStr "look left")]
           (Some ["nudge"]) (Some "") None None (Some "sess_guest")
           in_session
           (snd (append_event
                   "act1" "thr_never_started" "hint"
                   [("text", JStr "look left")]
                   (Some ["nudge"]) (Some "") None None (Some "sess_guest")
                   in_session))).
  - reflexivity.
  - reflexivity.
Defined.

(** X3: an answer of [start_thread] that is not an error comes only for a
    session that could be resolved, and holds that session id (the explicit
    one if not empty, else the active one), the thread id [thr_] followed
    by the first eight digits of a new UUID, and the thread-start event,
    which carries the same two ids, the given activity, actor [system],
    kind [state], tag [thread_start] and the metadata, an empty object when
    none was given. *)
Theorem start_thread_answers_with_the_thread
  (activity_id : string) (session_id : option string)
  (metadata : option dict) (st st' : state) (r : dict) :
  start_thread activity_id session_id metadata st = (Ok r, st') ->
  dict_mem "error" r = false ->
  resolved session_id st <> ""
  /\ r = [("session_id", JStr (resolved session_id st));
          ("thread_id", JStr ("thr_" ++ first8 (uuid4_hex st (n_uuid st))));
          ("event",
           JObj [("id", JStr ("evt_" ++ uuid4_hex st (S (n_uuid st))));
                 ("ts", JStr (utcnow st (n_clock st) ++ "Z"));
                 ("actor", JStr "system");
                 ("session_id", JStr (resolved session_id st));
                 ("activity_id", JStr activity_id);
                 ("thread_id",
                  JStr ("thr_" ++ first8 (uuid4_hex st (n_uuid st))));
                 ("kind", JStr "state");
                 ("tags", JArr [JStr "thread_start"]);
                 ("data",
                  JObj [("metadata",
                         JObj (match metadata with
                               | Some d => d
                               | None => []
                               end))])])].
Proof.
  intros Hrun Hok.
  destruct (start_thread_cases activity_id session_id metadata st)
    as [H | [Hsid H]]; rewrite H in Hrun; injection Hrun as <- _.
  - discriminate Hok.
  - split; [exact Hsid | reflexivity].
Qed.

Lemma start_thread_answers_with_the_thread_witness :
  resolved (Some "sess_guest") in_session <> ""
  /\ [("session_id", JStr "sess_guest");
      ("thread_id", JStr "thr_00112233");
      ("event",
       JObj [("id", JStr "evt_a1b2c3d4e5f60718293a4b5c6d7e8f90");
             ("ts", JStr "2024-05-01T10:00:00Z");
             ("actor", JStr "system");
             ("session_id", JStr "sess_guest");
             ("activity_id", JStr "act1");
             ("thread_id", JStr "thr_00112233");
             ("kind", JStr "state");
             ("tags", JArr [JStr "thread_start"]);
             ("data", JObj [("metadata", JObj [("try", JInt 2)])])])]
     = [("session_id", JStr (resolved (Some "sess_guest") in_session));
        ("thread_id",
         JStr ("thr_" ++ first8 (uuid4_hex in_session (n_uuid in_session))));
        ("event",
         JObj [("id",
                JStr ("evt_" ++ uuid4_hex in_session (S (n_uuid in_session))));
               ("ts", JStr (utcnow in_session (n_clock in_session) ++ "Z"));
               ("actor", JStr "system");
               ("session_id", JStr (resolved (Some "sess_guest") in_session));
               ("activity_id", JStr "act1");
               ("thread_id",
                JStr ("thr_"
                      ++ first8 (uuid4_hex in_session (n_uuid in_session))));
               ("kind", JStr "state");
               ("tags", JArr [JStr "thread_start"]);
               ("data", JObj [("metadata", JObj [("try", JInt 2)])])])].
Proof.
  apply (start_thread_answers_with_the_thread
           "act1" (Some "sess_guest") (Some [("try", JInt 2)]) in_session
           (snd (start_thread "act1" (Some "sess_guest")
                              (Some [("try", JInt 2)]) in_session))).
  - reflexivity.
  - reflexivity.
Defined.

(** ** What a series of calls keeps *)

(** The four ways a call can leave the state. *)
Lemma serve_cases (fromisoformat : string -> option datetime)
      (c : call) (st : state) :
  serve fromisoformat c st = st
  \/ (exists base,
         is_bootstrap c = true
         /\ _load_private_context st = JObj base
         /\ serve fromisoformat c st = bootstrapped base st)
  \/ (is_bootstrap c = true
      /\ loads_mapping st = false
      /\ serve fromisoformat c st = after_token st)
  \/ (exists draws ev,
         is_bootstrap c = false
         /\ serve fromisoformat c st = after_write draws ev st).
Proof.
  destruct c as [expose
                | activity_id session_id metadata
                | activity_id thread_id kind data tags actor confidence
                              supersedes session_id
                | session_id activity_id thread_id kinds since until limit];
    simpl serve.
  - destruct (bootstrap_session_cases expose st)
      as [[base [Hload Hrun]] | [Hload Hrun]]; rewrite Hrun.
    + right. left. exists base. repeat split. exact Hload.
    + right. right. left. repeat split. exact Hload.
  - destruct (start_thread_cases activity_id session_id metadata st)
      as [Hrun | [Hsid Hrun]]; rewrite Hrun.
    + left. reflexivity.
    + right. right. right. eexists. eexists. split; reflexivity.
  - destruct (append_event_cases activity_id thread_id kind data tags actor
                                 confidence supersedes session_id st)
      as [Hrun | [Hrun | [Hsid [Hkind Hrun]]]]; rewrite Hrun.
    + left. reflexivity.
    + left. reflexivity.
    + right. right. right. eexists. eexists. split; reflexivity.
  - left. reflexivity.
Qed.

(** No call touches the context file, the clock or the random sources. *)
Lemma serve_frame (fromisoformat : string -> option datetime)
      (c : call) (st : state) :
  ctx_file (serve fromisoformat c st) = ctx_file st
  /\ token_hex (serve fromisoformat c st) = token_hex st
  /\ uuid4_hex (serve fromisoformat c st) = uuid4_hex st
  /\ utcnow (serve fromisoformat c st) = utcnow st.
Proof.
  destruct (serve_cases fromisoformat c st)
    as [-> | [[base [_ [_ ->]]] | [[_ [_ ->]] | [draws [ev [_ ->]]]]]];
    repeat split.
Qed.

(** X5: only [bootstrap_session] touches the session registry.  After any
    series of [start_thread], [append_event] and [list_events] calls, with
    or without explicit session ids, the stored private contexts and the
    active session are what they were. *)
Theorem registry_changes_only_at_bootstrap
  (fromisoformat : string -> option datetime) (calls : list call) :
  forall st,
    forallb (fun c => negb (is_bootstrap c)) calls = true ->
    _PRIVATE_CTX (serve_all fromisoformat calls st) = _PRIVATE_CTX st
    /\ _ACTIVE_SESSION_ID (serve_all fromisoformat calls st)
       = _ACTIVE_SESSION_ID st.
Proof.
  induction calls as [| c calls IH]; intros st Hno; [split; reflexivity |].
  simpl in Hno. apply andb_prop in Hno. destruct Hno as [Hc Hno].
  change (serve_all fromisoformat (c :: calls) st)
    with (serve_all fromisoformat calls (serve fromisoformat c st)).
  destruct (IH (serve fromisoformat c st) Hno) as [-> ->].
  destruct (serve_cases fromisoformat c st)
    as [-> | [[base [Hb _]] | [[Hb _] | [draws [ev [_ ->]]]]]];
    try (rewrite Hb in Hc; discriminate Hc); split; reflexivity.
Qed.

Lemma registry_changes_only_at_bootstrap_witness :
  _PRIVATE_CTX
    (serve_all fromisoformat_seconds
               [StartThread "act1" (Some "sess_other") None;
                AppendEvent "act1" "thr_1" "note" [] None None None None None;
                ListEvents None None None None None None 10]
               (bootstrapped fallback_context fresh_process))
  = _PRIVATE_CTX (bootstrapped fallback_context fresh_process)
  /\ _ACTIVE_SESSION_ID
       (serve_all fromisoformat_seconds
                  [StartThread "act1" (Some "sess_other") None;
                   AppendEvent "act1" "thr_1" "note" [] None None None None None;
                   ListEvents None None None None None None 10]
                  (bootstrapped fallback_context fresh_process))
     = _ACTIVE_SESSION_ID (bootstrapped fallback_context fresh_process).
Proof.
  apply (registry_changes_only_at_bootstrap
           fromisoformat_seconds
           [StartThread "act1" (Some "sess_other") None;
            AppendEvent "act1" "thr_1" "note" [] None None None None None;
            ListEvents None None None None None None 10]
           (bootstrapped fallback_context fresh_process)).
  reflexivity.
Defined.

Lemma dict_mem_set {V} (k k' : string) (v : V) (d : list (string * V)) :
  dict_mem k d = true -> dict_mem k (dict_set k' v d) = true.
Proof.
  unfold dict_mem. intros H. destruct (String.eqb_spec k k') as [-> | Hne].
  - now rewrite dict_get_set_eq.
  - now rewrite dict_get_set_ne.
Qed.

Lemma serve_keeps_sessions (fromisoformat : string -> option datetime)
      (c : call) (st : state) :
  (resolved None st <> "" -> resolved None (serve fromisoformat c st) <> "")
  /\ (forall sid, dict_mem sid (_PRIVATE_CTX st) = true ->
                  dict_mem sid (_PRIVATE_CTX (serve fromisoformat c st)) = true).
Proof.
  destruct (serve_cases fromisoformat c st)
    as [-> | [[base [_ [_ ->]]] | [[_ [_ ->]] | [draws [ev [_ ->]]]]]];
    split; try (intros; assumption).
  - intros _. unfold resolved, or_str. simpl. discriminate.
  - intros sid Hsid. unfold bootstrapped. cbn [_PRIVATE_CTX].
    now apply dict_mem_set.
Qed.

(** X6: a session, once active, is never cleared, and a stored private
    context is never dropped.  So from the first successful bootstrap on,
    whatever calls follow, [start_thread] and [append_event] made without a
    session id never answer with the no-active-session error. *)
Theorem active_session_is_never_cleared
  (fromisoformat : string -> option datetime) (calls : list call)
  (activity_id thread_id kind : string) (data : dict)
  (tags : option (list string)) (actor : option string)
  (confidence : option Z) (supersedes : option string)
  (metadata : option dict) :
  forall st,
    truthy_str (_ACTIVE_SESSION_ID st) = true ->
    let st' := serve_all fromisoformat calls st in
    truthy_str (_ACTIVE_SESSION_ID st') = true
    /\ (forall sid, dict_mem sid (_PRIVATE_CTX st) = true ->
                    dict_mem sid (_PRIVATE_CTX st') = true)
    /\ fst (start_thread activity_id None metadata st') <> Ok no_session_error
    /\ fst (append_event activity_id thread_id kind data tags actor
                         confidence supersedes None st')
       <> Ok no_session_error.
Proof.
  assert (Hres : forall st, truthy_str (_ACTIVE_SESSION_ID st) = true <->
                            resolved None st <> "").
  { intros st. unfold resolved, or_str. simpl.
    destruct (_ACTIVE_SESSION_ID st) as [s |]; simpl.
    - destruct (String.eqb_spec s "") as [-> | Hne]; simpl; split.
      + discriminate.
      + intros H. now contradiction H.
      + intros _. exact Hne.
      + reflexivity.
    - split; [discriminate | intros H; now contradiction H]. }
  assert (Hall : forall st,
             resolved None st <> "" ->
             resolved None (serve_all fromisoformat calls st) <> ""
             /\ (forall sid, dict_mem sid (_PRIVATE_CTX st) = true ->
                             dict_mem sid (_PRIVATE_CTX
                                             (serve_all fromisoformat calls st))
                             = true)).
  { induction calls as [| c calls IH]; intros st Hst; [now split |].
    change (serve_all fromisoformat (c :: calls) st)
      with (serve_all fromisoformat calls (serve fromisoformat c st)).
    destruct (serve_keeps_sessions fromisoformat c st) as [Ha Hp].
    destruct (IH _ (Ha Hst)) as [Ha' Hp'].
    split; [exact Ha' | intros sid Hsid; apply Hp', Hp, Hsid]. }
  intros st Hactive st'. apply Hres in Hactive.
  destruct (Hall st Hactive) as [Hlive Hkept]. fold st' in Hlive, Hkept.
  split; [now apply Hres |]. split; [exact Hkept |]. split.
  - destruct (start_thread_cases activity_id None metadata st')
      as [H | [_ H]]; rewrite H; simpl fst.
    + rewrite (start_thread_runs activity_id None metadata st' Hlive) in H.
      discriminate H.
    + discriminate.
  - destruct (append_event_cases activity_id thread_id kind data tags actor
                                 confidence supersedes None st')
      as [H | [H | [_ [_ H]]]]; rewrite H; simpl fst.
    + destruct (str_in kind KINDS) eqn:Hk.
      * rewrite (append_event_runs activity_id thread_id kind data tags actor
                                   confidence supersedes None st' Hlive Hk)
          in H.
        discriminate H.
      * rewrite (append_event_bad_kind activity_id thread_id kind data tags
                                       actor confidence supersedes None st'
                                       Hlive Hk) in H.
        unfold invalid_kind_error, no_session_error in H. simpl in H.
        discriminate H.
    + unfold invalid_kind_error, no_session_error. simpl. discriminate.
    + discriminate.
Qed.

Lemma active_session_is_never_cleared_witness :
  let st' :=
    serve_all fromisoformat_seconds
              [AppendEvent "act1" "thr_1" "quiz" [] None None None None None;
               Bootstrap None;
               ListEvents None None None None (Some "yesterday") None 10]
              in_session in
  truthy_str (_ACTIVE_SESSION_ID st') = true
  /\ (forall sid, dict_mem sid (_PRIVATE_CTX in_session) = true ->
                  dict_mem sid (_PRIVATE_CTX st') = true)
  /\ fst (start_thread "act1" None None st') <> Ok no_session_error
  /\ fst (append_event "act1" "thr_1" "note" [] None None None None None st')
     <> Ok no_session_error.
Proof.
  apply (active_session_is_never_cleared
           fromisoformat_seconds
           [AppendEvent "act1" "thr_1" "quiz" [] None None None None None;
            Bootstrap None;
            ListEvents None None None None (Some "yesterday") None 10]
           "act1" "thr_1" "note" [] None None None None None in_session).
  reflexivity.
Defined.

(** ** The session registry *)

(** X7: a context file that holds JSON other than an object makes
    [bootstrap_session] raise [TypeError], and the failed call leaves no
    trace: the stored contexts, the active session and the log are what
    they were. *)
Theorem bootstrap_fails_without_a_trace
  (expose : option (list string)) (st : state) (v : json) :
  ctx_file st = Document v ->
  (forall d, v <> JObj d) ->
  exists st',
    bootstrap_session expose st = (Raise TypeError, st')
    /\ _PRIVATE_CTX st' = _PRIVATE_CTX st
    /\ _ACTIVE_SESSION_ID st' = _ACTIVE_SESSION_ID st
    /\ log_file st' = log_file st.
Proof.
  intros Hfile Hv. exists (after_token st). split; [| repeat split].
  apply bootstrap_session_raises.
  unfold loads_mapping, _load_private_context. rewrite Hfile.
  destruct v; try reflexivity. now contradiction (Hv fields).
Qed.

Lemma bootstrap_fails_without_a_trace_witness :
  exists st',
    bootstrap_session (Some ["cohort"])
                      (set_ctx_file (Document (JStr "pilot")) in_session)
    = (Raise TypeError, st')
    /\ _PRIVATE_CTX st' = []
    /\ _ACTIVE_SESSION_ID st' = Some "sess_0a1b2c3d"
    /\ log_file st' = None.
Proof.
  apply (bootstrap_fails_without_a_trace
           (Some ["cohort"])
           (set_ctx_file (Document (JStr "pilot")) in_session)
           (JStr "pilot")).
  - reflexivity.
  - discriminate.
Defined.

(** X8: a bootstrap that finds an object in the context file (or falls back
    to the demo context) makes the new session the active one, whatever was
    active before; stores for it the fields of the private context, with
    [ts] set to the time of creation even when the context has a [ts] of its
    own; and leaves the contexts stored for other sessions as they were. *)
Theorem bootstrap_replaces_the_active_session
  (expose : option (list string)) (st : state) (base : dict) :
  _load_private_context st = JObj base ->
  let sid := "sess_" ++ token_hex st (n_token st) in
  exists payload st' stored,
    bootstrap_session expose st = (Ok payload, st')
    /\ _ACTIVE_SESSION_ID st' = Some sid
    /\ dict_get sid (_PRIVATE_CTX st') = Some stored
    /\ dict_get "ts" stored = Some (JStr (utcnow st (n_clock st) ++ "Z"))
    /\ (forall k, k <> "ts" -> dict_get k stored = dict_get k base)
    /\ (forall other, other <> sid ->
                      dict_get other (_PRIVATE_CTX st')
                      = dict_get other (_PRIVATE_CTX st)).
Proof.
  intros Hload sid.
  eexists. eexists. eexists.
  split; [apply bootstrap_session_runs; exact Hload |].
  unfold bootstrapped. cbn [_ACTIVE_SESSION_ID _PRIVATE_CTX].
  split; [reflexivity |].
  split; [apply dict_get_set_eq |].
  split; [apply dict_get_set_eq |].
  split.
  - intros k Hk. now apply dict_get_set_ne.
  - intros other Hother. now apply dict_get_set_ne.
Qed.

Lemma bootstrap_replaces_the_active_session_witness :
  exists payload st' stored,
    bootstrap_session None
                      (set_ctx_file
                         (Document (JObj [("ts", JStr "old");
                                          ("user_id", JStr "u1")]))
                         in_session)
    = (Ok payload, st')
    /\ _ACTIVE_SESSION_ID st' = Some "sess_0a1b2c3d"
    /\ dict_get "sess_0a1b2c3d" (_PRIVATE_CTX st') = Some stored
    /\ dict_get "ts" stored = Some (JStr "2024-05-01T10:00:00Z")
    /\ (forall k, k <> "ts" ->
                  dict_get k stored
                  = dict_get k [("ts", JStr "old"); ("user_id", JStr "u1")])
    /\ (forall other, other <> "sess_0a1b2c3d" ->
                      dict_get other (_PRIVATE_CTX st') = None).
Proof.
  apply (bootstrap_replaces_the_active_session
           None
           (set_ctx_file
              (Document (JObj [("ts", JStr "old"); ("user_id", JStr "u1")]))
              in_session)
           [("ts", JStr "old"); ("user_id", JStr "u1")]).
  reflexivity.
Defined.

(** ** The private context and what leaves the process *)

Lemma loads_mapping_serve (fromisoformat : string -> option datetime)
      (c : call) (st : state) :
  loads_mapping (serve fromisoformat c st) = loads_mapping st.
Proof.
  unfold loads_mapping, _load_private_context.
  destruct (serve_frame fromisoformat c st) as [-> _]. reflexivity.
Qed.

Lemma same_public_answer (fromisoformat : string -> option datetime)
      (c : call) (st1 st2 : state) :
  same_public st1 st2 ->
  is_bootstrap c = false ->
  answer fromisoformat c st1 = answer fromisoformat c st2.
Proof.
  destruct st1 as [p1 a1 l1 c1 t1 u1 w1 nt1 nu1 nc1].
  destruct st2 as [p2 a2 l2 c2 t2 u2 w2 nt2 nu2 nc2].
  unfold same_public. simpl.
  intros [<- [<- [<- [<- [<- [<- [<- <-]]]]]]] Hc.
  destruct c as [expose
                | activity_id session_id metadata
                | activity_id thread_id kind data tags actor confidence
                              supersedes session_id
                | session_id activity_id thread_id kinds since until limit];
    [discriminate Hc | | | reflexivity].
  - unfold answer, start_thread. simpl.
    destruct (or_str session_id a1) as [sid |]; [| reflexivity].
    destruct (String.eqb sid ""); reflexivity.
  - unfold answer, append_event. cbn [_ACTIVE_SESSION_ID].
    destruct (or_str session_id a1) as [sid |]; [| reflexivity].
    destruct (String.eqb sid ""); [reflexivity |].
    destruct (str_in kind KINDS); reflexivity.
Qed.

Lemma same_public_serve (fromisoformat : string -> option datetime)
      (c : call) (st1 st2 : state) :
  same_public st1 st2 ->
  loads_mapping st1 = true -> loads_mapping st2 = true ->
  same_public (serve fromisoformat c st1) (serve fromisoformat c st2).
Proof.
  intros Hsame Hl1 Hl2.
  destruct c as [expose
                | activity_id session_id metadata
                | activity_id thread_id kind data tags actor confidence
                              supersedes session_id
                | session_id activity_id thread_id kinds since until limit].
  - simpl serve.
    destruct (bootstrap_session_cases expose st1)
      as [[b1 [_ ->]] | [Hno _]]; [| congruence].
    destruct (bootstrap_session_cases expose st2)
      as [[b2 [_ ->]] | [Hno _]]; [| congruence].
    destruct st1 as [p1 a1 l1 c1 t1 u1 w1 nt1 nu1 nc1].
    destruct st2 as [p2 a2 l2 c2 t2 u2 w2 nt2 nu2 nc2].
    unfold same_public in *. simpl in *.
    destruct Hsame as [<- [<- [<- [<- [<- [<- [<- <-]]]]]]].
    repeat split.
  - destruct st1 as [p1 a1 l1 c1 t1 u1 w1 nt1 nu1 nc1].
    destruct st2 as [p2 a2 l2 c2 t2 u2 w2 nt2 nu2 nc2].
    unfold same_public in *. simpl in Hsame.
    destruct Hsame as [<- [<- [<- [<- [<- [<- [<- <-]]]]]]].
    unfold serve, start_thread. simpl.
    destruct (or_str session_id a1) as [sid |]; [| repeat split].
    destruct (String.eqb sid ""); repeat split.
  - destruct st1 as [p1 a1 l1 c1 t1 u1 w1 nt1 nu1 nc1].
    destruct st2 as [p2 a2 l2 c2 t2 u2 w2 nt2 nu2 nc2].
    unfold same_public in *. simpl in Hsame.
    destruct Hsame as [<- [<- [<- [<- [<- [<- [<- <-]]]]]]].
    unfold serve, append_event. cbn [_ACTIVE_SESSION_ID].
    destruct (or_str session_id a1) as [sid |]; [| repeat split].
    destruct (String.eqb sid ""); [repeat split |].
    destruct (str_in kind KINDS); repeat split.
  - exact Hsame.
Qed.

(** X9: what is in the private context never reaches the log nor any answer
    but the one of [bootstrap_session].  Take two processes that differ only
    in their context files (each holding some JSON object, or none) and in
    the contexts they have stored, and make the same calls to both: they end
    with the same log and the same active session, and any further call
    other than a bootstrap gets the same answer from both. *)
Theorem private_context_stays_private
  (fromisoformat : string -> option datetime) (calls : list call) :
  forall st1 st2,
    same_public st1 st2 ->
    loads_mapping st1 = true -> loads_mapping st2 = true ->
    log_file (serve_all fromisoformat calls st1)
    = log_file (serve_all fromisoformat calls st2)
    /\ _ACTIVE_SESSION_ID (serve_all fromisoformat calls st1)
       = _ACTIVE_SESSION_ID (serve_all fromisoformat calls st2)
    /\ forall c, is_bootstrap c = false ->
                 answer fromisoformat c (serve_all fromisoformat calls st1)
                 = answer fromisoformat c (serve_all fromisoformat calls st2).
Proof.
  assert (Hall : forall st1 st2,
             same_public st1 st2 ->
             loads_mapping st1 = true -> loads_mapping st2 = true ->
             same_public (serve_all fromisoformat calls st1)
                         (serve_all fromisoformat calls st2)).
  { induction calls as [| c calls IH]; intros st1 st2 Hsame Hl1 Hl2;
      [exact Hsame |].
    change (serve_all fromisoformat (c :: calls) st1)
      with (serve_all fromisoformat calls (serve fromisoformat c st1)).
    change (serve_all fromisoformat (c :: calls) st2)
      with (serve_all fromisoformat calls (serve fromisoformat c st2)).
    apply IH; [now apply same_public_serve | |];
      now rewrite loads_mapping_serve. }
  intros st1 st2 Hsame Hl1 Hl2.
  pose proof (Hall st1 st2 Hsame Hl1 Hl2) as Hend.
  split; [apply Hend |]. split; [apply Hend |].
  intros c Hc. now apply same_public_answer.
Qed.

Lemma private_context_stays_private_witness :
  log_file (serve_all fromisoformat_seconds
                      [Bootstrap (Some ["user_id"]);
                       StartThread "act1" None None]
                      fresh_process)
  = log_file (serve_all fromisoformat_seconds
                        [Bootstrap (Some ["user_id"]);
                         StartThread "act1" None None]
                        with_context)
  /\ _ACTIVE_SESSION_ID (serve_all fromisoformat_seconds
                                   [Bootstrap (Some ["user_id"]);
                                    StartThread "act1" None None]
                                   fresh_process)
     = _ACTIVE_SESSION_ID (serve_all fromisoformat_seconds
                                     [Bootstrap (Some ["user_id"]);
                                      StartThread "act1" None None]
                                     with_context)
  /\ forall c, is_bootstrap c = false ->
               answer fromisoformat_seconds c
                      (serve_all fromisoformat_seconds
                                 [Bootstrap (Some ["user_id"]);
                                  StartThread "act1" None None]
                                 fresh_process)
               = answer fromisoformat_seconds c
                        (serve_all fromisoformat_seconds
                                   [Bootstrap (Some ["user_id"]);
                                    StartThread "act1" None None]
                                   with_context).
Proof.
  apply (private_context_stays_private
           fromisoformat_seconds
           [Bootstrap (Some ["user_id"]); StartThread "act1" None None]
           fresh_process with_context).
  - repeat split.
  - reflexivity.
  - reflexivity.
Defined.

(** ** More on [list_events] *)

Section ScanProofs.
Variable fromisoformat : string -> option datetime.
Variables session_id activity_id thread_id : option string.
Variable kinds_set : list string.
Variables ts_since ts_until : option datetime.

(** The loop only ever adds to [out]. *)
Lemma scan_extends (limit : Z) (lines : list line) :
  forall out count out',
    scan fromisoformat session_id activity_id thread_id kinds_set
         ts_since ts_until limit lines out count = Ok out' ->
    exists tail, out' = (out ++ tail)%list.
Proof.
  induction lines as [| l lines IH]; intros out count out' Hrun;
    simpl in Hrun.
  - injection Hrun as <-. exists []. now rewrite app_nil_r.
  - destruct l as [| | ev]; [eauto | discriminate |].
    destruct (loop_body _ _ _ _ _ _ _ ev) as [[|] | e]; simpl in Hrun;
      [| eauto | discriminate].
    destruct (count + 1 >=? effective_limit limit).
    + injection Hrun as <-. now exists [ev].
    + destruct (IH _ _ _ Hrun) as [tail ->].
      exists (ev :: tail). now rewrite <- app_assoc.
Qed.

(** Blank lines make no difference. *)
Lemma scan_skips_blanks (limit : Z) (lines : list line) :
  forall out count,
    scan fromisoformat session_id activity_id thread_id kinds_set
         ts_since ts_until limit (filter non_blank lines) out count
    = scan fromisoformat session_id activity_id thread_id kinds_set
           ts_since ts_until limit lines out count.
Proof.
  induction lines as [| l lines IH]; intros out count; [reflexivity |].
  destruct l as [| | ev]; simpl; [apply IH | reflexivity |].
  destruct (loop_body _ _ _ _ _ _ _ ev) as [[|] | e]; simpl;
    [| apply IH | reflexivity].
  destruct (count + 1 >=? effective_limit limit); [reflexivity | apply IH].
Qed.

(** With a lower limit the loop stops earlier, on what the loop with the
    higher limit had collected by then. *)
Lemma scan_lower_limit (limit1 limit2 : Z) (lines : list line) :
  limit1 <= limit2 ->
  forall out count out2,
    count = Z.of_nat (List.length out) ->
    count < effective_limit limit1 ->
    scan fromisoformat session_id activity_id thread_id kinds_set
         ts_since ts_until limit2 lines out count = Ok out2 ->
    scan fromisoformat session_id activity_id thread_id kinds_set
         ts_since ts_until limit1 lines out count
    = Ok (firstn (Z.to_nat (effective_limit limit1)) out2).
Proof.
  intros Hle.
  assert (HL : effective_limit limit1 <= effective_limit limit2)
    by (unfold effective_limit; lia).
  induction lines as [| l lines IH]; intros out count out2 Hc Hlt Hrun;
    simpl in Hrun |- *.
  - injection Hrun as <-. rewrite firstn_all2; [reflexivity | lia].
  - destruct l as [| | ev]; [now apply IH | discriminate |].
    destruct (loop_body _ _ _ _ _ _ _ ev) as [[|] | e]; simpl in Hrun |- *;
      [| now apply IH | discriminate].
    destruct (count + 1 >=? effective_limit limit2) eqn:E2;
      destruct (count + 1 >=? effective_limit limit1) eqn:E1;
      rewrite Z.geb_leb in E1, E2.
    + injection Hrun as <-.
      rewrite firstn_all2; [reflexivity | rewrite length_app; simpl; lia].
    + exfalso. lia.
    + destruct (scan_extends _ _ _ _ _ Hrun) as [tail ->].
      replace (Z.to_nat (effective_limit limit1))
        with (List.length (out ++ [ev])%list + 0)%nat
        by (rewrite length_app; simpl; lia).
      rewrite firstn_app_2. simpl. now rewrite app_nil_r.
    + apply IH; [rewrite length_app; simpl; lia | lia | exact Hrun].
Qed.
End ScanProofs.

(** X10: lines appended to the log never change what [list_events] has
    already returned: if the same query returns on the longer log too, its
    result is the old result followed by zero or more events. *)
Theorem list_events_grows_at_the_end
  (fromisoformat : string -> option datetime)
  (session_id activity_id thread_id : option string)
  (kinds : option (list string)) (since until : option string)
  (limit : Z) (st : state) (more : list line) (out out' : list json) :
  fst (list_events fromisoformat session_id activity_id thread_id kinds
                   since until limit st) = Ok out ->
  fst (list_events fromisoformat session_id activity_id thread_id kinds
                   since until limit
                   (set_log (Some (_iter_events st ++ more)%list) st))
  = Ok out' ->
  exists tail, out' = (out ++ tail)%list.
Proof.
  unfold list_events. simpl fst.
  destruct (parse_ts fromisoformat since) as [ts_since | e]; [| discriminate].
  destruct (parse_ts fromisoformat until) as [ts_until | e]; [| discriminate].
  simpl rbind. intros Hold Hnew.
  pose proof (effective_limit_pos limit) as Hpos.
  pose proof (scan_app fromisoformat session_id activity_id thread_id kinds
                       limit ts_since ts_until (_iter_events st) more [] 0
                       eq_refl ltac:(lia)) as Happ.
  cbv beta zeta in Happ. rewrite Hold in Happ.
  change (_iter_events (set_log (Some (_iter_events st ++ more)%list) st))
    with (_iter_events st ++ more)%list in Hnew.
  destruct (Z.of_nat (List.length out) <? effective_limit limit).
  - rewrite Happ in Hnew. exact (scan_extends _ _ _ _ _ _ _ _ _ _ _ _ Hnew).
  - rewrite Happ in Hnew. injection Hnew as <-.
    exists []. now rewrite app_nil_r.
Qed.

Lemma list_events_grows_at_the_end_witness :
  exists tail,
    [note_at "evt_0" "2024-05-01T10:00:00Z";
     note_at "evt_2" "2024-05-01T10:00:09Z";
     note_at "evt_4" "2024-05-01T10:00:12Z"]
    = ([note_at "evt_0" "2024-05-01T10:00:00Z";
        note_at "evt_2" "2024-05-01T10:00:09Z"] ++ tail)%list.
Proof.
  apply (list_events_grows_at_the_end
           fromisoformat_seconds None None None (Some ["note"]) None None 10
           (with_log three_events)
           [Record (note_at "evt_4" "2024-05-01T10:00:12Z")]);
    vm_compute; reflexivity.
Defined.

(** X11: blank lines in the log make no difference to [list_events]: it
    returns, or raises, the same on the log and on the log without them. *)
Theorem list_events_ignores_blank_lines
  (fromisoformat : string -> option datetime)
  (session_id activity_id thread_id : option string)
  (kinds : option (list string)) (since until : option string)
  (limit : Z) (st : state) (lines : list line) :
  fst (list_events fromisoformat session_id activity_id thread_id kinds
                   since until limit
                   (set_log (Some (filter non_blank lines)) st))
  = fst (list_events fromisoformat session_id activity_id thread_id kinds
                     since until limit (set_log (Some lines) st)).
Proof.
  unfold list_events. simpl fst.
  destruct (parse_ts fromisoformat since) as [ts_since | e]; [| reflexivity].
  destruct (parse_ts fromisoformat until) as [ts_until | e]; [| reflexivity].
  simpl rbind. apply scan_skips_blanks.
Qed.

(** X12: a line that is not JSON makes [list_events] raise
    [JSONDecodeError] as soon as the scan comes to it, that is when the
    well-formed lines before it hold fewer matching events than the page
    takes. *)
Theorem list_events_fails_on_a_garbled_line
  (fromisoformat : string -> option datetime)
  (session_id activity_id thread_id : option string)
  (kinds : option (list string)) (since until : option string)
  (limit : Z) (st : state) (before after : list line) :
  log_file st = Some (before ++ Garbled :: after)%list ->
  forallb (line_ok fromisoformat) before = true ->
  bound_ok fromisoformat since = true ->
  bound_ok fromisoformat until = true ->
  Z.of_nat (List.length
              (filter (satisfies fromisoformat session_id activity_id
                                 thread_id kinds since until)
                      (records before)))
  < Z.min (Z.max limit 1) 2000 ->
  list_events fromisoformat session_id activity_id thread_id kinds
              since until limit st
  = (Raise JSONDecodeError, st).
Proof.
  intros Hlog Hbefore Hsince Huntil Hroom.
  rewrite <- effective_limit_clamp in Hroom.
  pose proof (effective_limit_pos limit) as Hpos.
  unfold list_events, _iter_events. rewrite Hlog.
  rewrite (parse_ts_ok _ _ Hsince), (parse_ts_ok _ _ Huntil). simpl rbind.
  pose proof (scan_app fromisoformat session_id activity_id thread_id kinds
                       limit (bound_time fromisoformat since)
                       (bound_time fromisoformat until)
                       before (Garbled :: after) [] 0 eq_refl ltac:(lia))
    as Happ.
  cbv beta zeta in Happ.
  pose proof (scan_ok fromisoformat session_id activity_id thread_id kinds
                      since until limit Hsince Huntil before Hbefore [] 0
                      eq_refl ltac:(lia)) as Hok.
  cbv beta zeta in Hok. rewrite Hok in Happ. simpl app in Happ.
  rewrite Z.sub_0_r in Happ.
  rewrite firstn_all2 in Happ by lia.
  destruct (Z.of_nat _ <? effective_limit limit) eqn:E in Happ;
    [| exfalso; lia].
  rewrite Happ. reflexivity.
Qed.

Lemma list_events_fails_on_a_garbled_line_witness :
  list_events fromisoformat_seconds None None None (Some ["metric"]) None None
              1 (with_log (Record (note_at "evt_0" "2024-05-01T10:00:00Z")
                             :: Garbled :: three_events))
  = (Raise JSONDecodeError,
     with_log (Record (note_at "evt_0" "2024-05-01T10:00:00Z")
                 :: Garbled :: three_events)).
Proof.
  apply (list_events_fails_on_a_garbled_line
           fromisoformat_seconds None None None (Some ["metric"]) None None 1
           (with_log (Record (note_at "evt_0" "2024-05-01T10:00:00Z")
                        :: Garbled :: three_events))
           [Record (note_at "evt_0" "2024-05-01T10:00:00Z")] three_events);
    vm_compute; reflexivity.
Defined.

(** X13: asking for fewer events never makes a query fail and never returns
    other events: if [list_events] returns with some limit, then with any
    lower limit it returns the first [min(max(limit, 1), 2000)] events of
    that result. *)
Theorem list_events_with_a_lower_limit
  (fromisoformat : string -> option datetime)
  (session_id activity_id thread_id : option string)
  (kinds : option (list string)) (since until : option string)
  (limit1 limit2 : Z) (st : state) (out2 : list json) :
  limit1 <= limit2 ->
  fst (list_events fromisoformat session_id activity_id thread_id kinds
                   since until limit2 st) = Ok out2 ->
  fst (list_events fromisoformat session_id activity_id thread_id kinds
                   since until limit1 st)
  = Ok (firstn (Z.to_nat (Z.min (Z.max limit1 1) 2000)) out2).
Proof.
  intros Hle. unfold list_events. simpl fst.
  destruct (parse_ts fromisoformat since) as [ts_since | e]; [| discriminate].
  destruct (parse_ts fromisoformat until) as [ts_until | e]; [| discriminate].
  simpl rbind. intros Hrun. rewrite <- effective_limit_clamp.
  pose proof (effective_limit_pos limit1) as Hpos.
  apply (scan_lower_limit _ _ _ _ _ _ _ limit1 limit2 _ Hle [] 0 out2
                          eq_refl ltac:(lia) Hrun).
Qed.

Lemma list_events_with_a_lower_limit_witness :
  fst (list_events fromisoformat_seconds None None None None None None 2
                   (with_log (three_events ++ [Record undated])))
  = Ok (firstn (Z.to_nat (Z.min (Z.max 2 1) 2000))
               [note_at "evt_0" "2024-05-01T10:00:00Z";
                metric_at "evt_1" "2024-05-01T10:00:05Z";
                note_at "evt_2" "2024-05-01T10:00:09Z"]).
Proof.
  apply (list_events_with_a_lower_limit
           fromisoformat_seconds None None None None None None 2 3
           (with_log (three_events ++ [Record undated]))).
  - lia.
  - vm_compute. reflexivity.
Defined.

(** ** Arguments of [list_events] that mean the same *)

Lemma scan_same_limit
  (fromisoformat : string -> option datetime)
  (session_id activity_id thread_id : option string)
  (kinds_set : list string) (ts_since ts_until : option datetime)
  (limit1 limit2 : Z) (lines : list line) :
  effective_limit limit1 = effective_limit limit2 ->
  forall out count,
    scan fromisoformat session_id activity_id thread_id kinds_set
         ts_since ts_until limit1 lines out count
    = scan fromisoformat session_id activity_id thread_id kinds_set
           ts_since ts_until limit2 lines out count.
Proof.
  intros Hsame.
  induction lines as [| l lines IH]; intros out count; [reflexivity |].
  destruct l as [| | ev]; simpl; [apply IH | reflexivity |].
  destruct (loop_body _ _ _ _ _ _ _ ev) as [[|] | e]; simpl;
    [| apply IH | reflexivity].
  rewrite Hsame.
  destruct (count + 1 >=? effective_limit limit2); [reflexivity | apply IH].
Qed.

Lemma scan_same_filters
  (fromisoformat : string -> option datetime)
  (s1 a1 t1 s2 a2 t2 : option string)
  (kinds_set : list string) (ts_since ts_until : option datetime)
  (limit : Z) (lines : list line) :
  or_str s1 None = or_str s2 None ->
  or_str a1 None = or_str a2 None ->
  or_str t1 None = or_str t2 None ->
  forall out count,
    scan fromisoformat s1 a1 t1 kinds_set ts_since ts_until limit
         lines out count
    = scan fromisoformat s2 a2 t2 kinds_set ts_since ts_until limit
           lines out count.
Proof.
  intros Hs Ha Ht.
  assert (Hskip : forall f1 f2 ev k,
             or_str f1 None = or_str f2 None ->
             skip_on f1 ev k = skip_on f2 ev k).
  { intros f1 f2 ev k. unfold or_str, skip_on, truthy_str.
    destruct f1 as [x |], f2 as [y |]; simpl;
      try destruct (String.eqb_spec x ""); try destruct (String.eqb_spec y "");
      simpl; intros H; try reflexivity; try discriminate H.
    now injection H as ->. }
  induction lines as [| l lines IH]; intros out count; [reflexivity |].
  destruct l as [| | ev]; simpl; [apply IH | reflexivity |].
  unfold loop_body.
  rewrite (Hskip s1 s2 ev "session_id" Hs),
          (Hskip a1 a2 ev "activity_id" Ha),
          (Hskip t1 t2 ev "thread_id" Ht).
  fold (loop_body fromisoformat s2 a2 t2 kinds_set ts_since ts_until ev).
  destruct (loop_body _ _ _ _ _ _ _ ev) as [[|] | e]; simpl;
    [| apply IH | reflexivity].
  destruct (count + 1 >=? effective_limit limit); [reflexivity | apply IH].
Qed.

(** X18: an empty argument is no filter.  [list_events] answers the same
    when [session_id], [activity_id], [thread_id], [since] or [until] is the
    empty string as when it is absent, and the same for an empty list of
    kinds as for none: it never looks for events whose field is empty. *)
Theorem list_events_empty_arguments
  (fromisoformat : string -> option datetime)
  (s1 a1 t1 s2 a2 t2 : option string)
  (kinds1 kinds2 : option (list string)) (since1 until1 since2 until2 : option string)
  (limit : Z) (st : state) :
  or_str s1 None = or_str s2 None ->
  or_str a1 None = or_str a2 None ->
  or_str t1 None = or_str t2 None ->
  or_str since1 None = or_str since2 None ->
  or_str until1 None = or_str until2 None ->
  match kinds1 with Some ks => ks | None => [] end
  = match kinds2 with Some ks => ks | None => [] end ->
  list_events fromisoformat s1 a1 t1 kinds1 since1 until1 limit st
  = list_events fromisoformat s2 a2 t2 kinds2 since2 until2 limit st.
Proof.
  intros Hs Ha Ht Hsince Huntil Hkinds.
  assert (Hparse : forall x y,
             or_str x None = or_str y None ->
             parse_ts fromisoformat x = parse_ts fromisoformat y).
  { intros x y. unfold or_str, parse_ts, truthy_str.
    destruct x as [x |], y as [y |]; simpl;
      try destruct (String.eqb_spec x ""); try destruct (String.eqb_spec y "");
      simpl; intros H; try reflexivity; try discriminate H.
    now injection H as ->. }
  unfold list_events.
  rewrite (Hparse _ _ Hsince), (Hparse _ _ Huntil), Hkinds.
  destruct (parse_ts fromisoformat since2) as [ts_since | e]; [| reflexivity].
  destruct (parse_ts fromisoformat until2) as [ts_until | e]; [| reflexivity].
  simpl rbind. f_equal. now apply scan_same_filters.
Qed.

Lemma list_events_empty_arguments_witness :
  list_events fromisoformat_seconds (Some "") (Some "") None (Some [])
              (Some "") None 5 (with_log three_events)
  = list_events fromisoformat_seconds None None (Some "") None
                None (Some "") 5 (with_log three_events).
Proof.
  apply (list_events_empty_arguments
           fromisoformat_seconds (Some "") (Some "") None None None (Some "")
           (Some []) None (Some "") None None (Some "") 5
           (with_log three_events));
    reflexivity.
Defined.

(** X19: every [Z] in [since] and [until] is ignored, wherever it stands:
    two non-empty texts that are the same once their [Z]s are removed give
    the same answer. *)
Theorem list_events_ignores_Z
  (fromisoformat : string -> option datetime)
  (session_id activity_id thread_id : option string)
  (kinds : option (list string)) (since1 since2 until1 until2 : string)
  (limit : Z) (st : state) :
  since1 <> "" -> since2 <> "" -> until1 <> "" -> until2 <> "" ->
  replace_Z since1 = replace_Z since2 ->
  replace_Z until1 = replace_Z until2 ->
  list_events fromisoformat session_id activity_id thread_id kinds
              (Some since1) (Some until1) limit st
  = list_events fromisoformat session_id activity_id thread_id kinds
                (Some since2) (Some until2) limit st.
Proof.
  intros H1 H2 H3 H4 Hs Hu. unfold list_events, parse_ts.
  destruct (String.eqb_spec since1 ""); [contradiction |].
  destruct (String.eqb_spec since2 ""); [contradiction |].
  destruct (String.eqb_spec until1 ""); [contradiction |].
  destruct (String.eqb_spec until2 ""); [contradiction |].
  now rewrite Hs, Hu.
Qed.

Lemma list_events_ignores_Z_witness :
  list_events fromisoformat_seconds None None None None
              (Some "2024-05-01T10:00:05Z") (Some "2024-05-01ZT10:00:09")
              10 (with_log three_events)
  = list_events fromisoformat_seconds None None None None
                (Some "2024-05-01T10:00:05") (Some "2024-05-01T10:00:09Z")
                10 (with_log three_events).
Proof.
  apply (list_events_ignores_Z
           fromisoformat_seconds None None None None
           "2024-05-01T10:00:05Z" "2024-05-01T10:00:05"
           "2024-05-01ZT10:00:09" "2024-05-01T10:00:09Z"
           10 (with_log three_events));
    try discriminate; reflexivity.
Defined.

(** X20: a limit below 1 is a limit of 1 and a limit above 2000 is a limit
    of 2000: [list_events] answers the same with [limit] as with
    [min(max(limit, 1), 2000)]. *)
Theorem list_events_clamps_the_limit
  (fromisoformat : string -> option datetime)
  (session_id activity_id thread_id : option string)
  (kinds : option (list string)) (since until : option string)
  (limit : Z) (st : state) :
  list_events fromisoformat session_id activity_id thread_id kinds
              since until limit st
  = list_events fromisoformat session_id activity_id thread_id kinds
                since until (Z.min (Z.max limit 1) 2000) st.
Proof.
  unfold list_events.
  destruct (parse_ts fromisoformat since) as [ts_since | e]; [| reflexivity].
  destruct (parse_ts fromisoformat until) as [ts_until | e]; [| reflexivity].
  simpl rbind. f_equal. apply scan_same_limit.
  unfold effective_limit. lia.
Qed.
